(** * fiap-tech-challenge-auth: the four Lambda handlers over Cognito

    A shallow embedding of the handlers [authorize], [authenticate],
    [register] and [confirm] and of [calculateSecretHash].  Two versions of
    the handler module are in the repository and both are modelled:
    - [Part000]: src/unnamed/part_000 (the version with the [respond] helper);
    - [IndexTs]: src/src/index.ts, lines 1-201, and [IndexTsTail], the second
      [authenticate] of the same file (lines 245-302).

    JavaScript values are modelled as they reach the handlers: strings are
    lists of UTF-16 code units, [JSON.parse] is a parser of the JSON grammar
    (ECMA-404) returning [None] where the engine throws a SyntaxError, and the
    call to Cognito is an [Await] node of a small program type, so that
    whether, and with which parameters, the provider is called is visible in
    the term the handler returns. *)

From Stdlib Require Import ZArith List String Ascii Bool Lia Setoid.
Import ListNotations.
Local Open Scope Z_scope.
Set Warnings "-register-all".

(** ** JavaScript strings and values *)

(** A JavaScript string: its UTF-16 code units. *)
Definition jsstring := list Z.

(** A string literal of the source, all of whose characters are ASCII. *)
Fixpoint js (s : string) : jsstring :=
  match s with
  | EmptyString => []
  | String c r => Z.of_nat (nat_of_ascii c) :: js r
  end.

Fixpoint jsstring_eqb (a b : jsstring) : bool :=
  match a, b with
  | [], [] => true
  | x :: a', y :: b' => (x =? y) && jsstring_eqb a' b'
  | _, _ => false
  end.

(** The values [JSON.parse] produces (plus [undefined]).  A number is kept as
    the decimal [m * 10^e] written in the text; the engine rounds it to a
    double, and the only facts about that double used by the handlers are
    whether it is zero and its [Number::toString] text. *)
Inductive jsval : Type :=
| JUndefined
| JNull
| JBool (b : bool)
| JNumber (m e : Z)
| JString (s : jsstring)
| JArray (elems : list jsval)
| JObject (fields : list (jsstring * jsval)).

(** The double nearest to [m * 10^e] is [0] (or [-0]) iff [m = 0] or
    [|m| * 10^e <= 2^-1075] (round to nearest, ties to even). *)
Definition number_is_zero (m e : Z) : bool :=
  (m =? 0) || ((e <? 0) && (Z.abs m * 2 ^ 1075 <=? 10 ^ (- e))).

(** ToBoolean, the test behind [!x] and [x || y]. *)
Definition truthy (v : jsval) : bool :=
  match v with
  | JUndefined | JNull => false
  | JBool b => b
  | JNumber m e => negb (number_is_zero m e)
  | JString s => negb (jsstring_eqb s [])
  | JArray _ | JObject _ => true
  end.

(** A [string | undefined] (or [string | null]) field: [!x]. *)
Definition opt_string_missing (x : option jsstring) : bool :=
  match x with
  | None => true
  | Some s => jsstring_eqb s []
  end.

(** [x || d] for [x : string | undefined] and a string [d]. *)
Definition or_default (x : option jsstring) (d : jsstring) : jsstring :=
  match x with
  | Some s => if jsstring_eqb s [] then d else s
  | None => d
  end.

(** Property lookup [v.k] on a value returned by [JSON.parse].  Objects built
    by [JSON.parse] keep the last of duplicated keys; none of the keys read
    by the handlers is on [Object.prototype], [Array.prototype],
    [String.prototype], [Number.prototype] or [Boolean.prototype]. *)
Definition get_property (v : jsval) (k : jsstring) : jsval :=
  match v with
  | JObject fields =>
      match find (fun kv => jsstring_eqb (fst kv) k) (rev fields) with
      | Some (_, x) => x
      | None => JUndefined
      end
  | _ => JUndefined
  end.

Definition has_own_property (v : jsval) (k : jsstring) : bool :=
  match v with
  | JObject fields => existsb (fun kv => jsstring_eqb (fst kv) k) fields
  | _ => false
  end.

(** ** JSON.parse *)

Definition is_ws (c : Z) : bool :=
  (c =? 9) || (c =? 10) || (c =? 13) || (c =? 32).

Fixpoint skip_ws (s : list Z) : list Z :=
  match s with
  | c :: r => if is_ws c then skip_ws r else s
  | [] => []
  end.

Definition is_digit (c : Z) : bool := (48 <=? c) && (c <=? 57).

Definition hex_value (c : Z) : option Z :=
  if (48 <=? c) && (c <=? 57) then Some (c - 48)
  else if (97 <=? c) && (c <=? 102) then Some (c - 87)
  else if (65 <=? c) && (c <=? 70) then Some (c - 55)
  else None.

Definition hex4 (a b c d : Z) : option Z :=
  match hex_value a, hex_value b, hex_value c, hex_value d with
  | Some x, Some y, Some z, Some w => Some (((x * 16 + y) * 16 + z) * 16 + w)
  | _, _, _, _ => None
  end.

(** The characters of a JSON string after its opening quote; returns the
    decoded string and the text after the closing quote. *)
Fixpoint parse_string_chars (s : list Z) (acc : list Z)
  : option (jsstring * list Z) :=
  match s with
  | [] => None
  | c :: r =>
      if c =? 34 then Some (rev acc, r)
      else if c =? 92 then
        match r with
        | [] => None
        | e :: r' =>
            if e =? 34 then parse_string_chars r' (34 :: acc)
            else if e =? 92 then parse_string_chars r' (92 :: acc)
            else if e =? 47 then parse_string_chars r' (47 :: acc)
            else if e =? 98 then parse_string_chars r' (8 :: acc)
            else if e =? 102 then parse_string_chars r' (12 :: acc)
            else if e =? 110 then parse_string_chars r' (10 :: acc)
            else if e =? 114 then parse_string_chars r' (13 :: acc)
            else if e =? 116 then parse_string_chars r' (9 :: acc)
            else if e =? 117 then
              match r' with
              | a :: b :: c' :: d :: r'' =>
                  match hex4 a b c' d with
                  | Some u => parse_string_chars r'' (u :: acc)
                  | None => None
                  end
              | _ => None
              end
            else None
        end
      else if c <? 32 then None
      else parse_string_chars r (c :: acc)
  end.

(** The longest prefix of decimal digits. *)
Fixpoint span_digits (s : list Z) : list Z * list Z :=
  match s with
  | c :: r =>
      if is_digit c then let (ds, rest) := span_digits r in (c :: ds, rest)
      else ([], s)
  | [] => ([], [])
  end.

Definition digits_value (ds : list Z) : Z :=
  fold_left (fun acc d => acc * 10 + (d - 48)) ds 0.

(** [int frac? exp?] after an optional minus sign. *)
Definition parse_number (s : list Z) : option (jsval * list Z) :=
  let '(neg, s1) :=
    match s with
    | c :: r => if c =? 45 then (true, r) else (false, s)
    | [] => (false, s)
    end in
  let int_part :=
    match s1 with
    | c :: r =>
        if c =? 48 then Some ([c], r)
        else if is_digit c then let (ds, rest) := span_digits r in Some (c :: ds, rest)
        else None
    | [] => None
    end in
  match int_part with
  | None => None
  | Some (ids, s2) =>
      let frac :=
        match s2 with
        | c :: r =>
            if c =? 46 then
              let (fs, rest) := span_digits r in
              match fs with [] => None | _ => Some (fs, rest) end
            else Some ([], s2)
        | [] => Some ([], s2)
        end in
      match frac with
      | None => None
      | Some (fds, s3) =>
          let expo :=
            match s3 with
            | c :: r =>
                if (c =? 101) || (c =? 69) then
                  let '(eneg, r1) :=
                    match r with
                    | d :: r' =>
                        if d =? 45 then (true, r')
                        else if d =? 43 then (false, r') else (false, r)
                    | [] => (false, r)
                    end in
                  let (eds, rest) := span_digits r1 in
                  match eds with
                  | [] => None
                  | _ => Some (if eneg then - digits_value eds else digits_value eds, rest)
                  end
                else Some (0, s3)
            | [] => Some (0, s3)
            end in
          match expo with
          | None => None
          | Some (ex, s4) =>
              let m := digits_value (ids ++ fds) in
              Some (JNumber (if neg then - m else m) (ex - Z.of_nat (List.length fds)), s4)
          end
      end
  end.

Fixpoint starts_with (p s : list Z) : option (list Z) :=
  match p, s with
  | [], _ => Some s
  | x :: p', y :: s' => if x =? y then starts_with p' s' else None
  | _ :: _, [] => None
  end.

(** A JSON value, then members of an object, then elements of an array.
    [fuel] bounds the nesting: every call made with [fuel - 1] has consumed
    at least one character since its caller started, so [length text + 1]
    never runs out on [text]. *)
Fixpoint parse_value (fuel : nat) (s : list Z) {struct fuel}
  : option (jsval * list Z) :=
  match fuel with
  | O => None
  | S n =>
      match skip_ws s with
      | [] => None
      | c :: r =>
          if c =? 123 then
            match skip_ws r with
            | d :: r' => if d =? 125 then Some (JObject [], r') else parse_members n r []
            | [] => None
            end
          else if c =? 91 then
            match skip_ws r with
            | d :: r' => if d =? 93 then Some (JArray [], r') else parse_elements n r []
            | [] => None
            end
          else if c =? 34 then
            match parse_string_chars r [] with
            | Some (str, r') => Some (JString str, r')
            | None => None
            end
          else
            match starts_with (js "true") (c :: r) with
            | Some r' => Some (JBool true, r')
            | None =>
            match starts_with (js "false") (c :: r) with
            | Some r' => Some (JBool false, r')
            | None =>
            match starts_with (js "null") (c :: r) with
            | Some r' => Some (JNull, r')
            | None => parse_number (c :: r)
            end end end
      end
  end
with parse_members (fuel : nat) (s : list Z) (acc : list (jsstring * jsval))
  {struct fuel} : option (jsval * list Z) :=
  match fuel with
  | O => None
  | S n =>
      match skip_ws s with
      | c :: r =>
          if c =? 34 then
            match parse_string_chars r [] with
            | Some (key, r1) =>
                match skip_ws r1 with
                | d :: r2 =>
                    if d =? 58 then
                      match parse_value n r2 with
                      | Some (v, r3) =>
                          match skip_ws r3 with
                          | e :: r4 =>
                              if e =? 44 then parse_members n r4 ((key, v) :: acc)
                              else if e =? 125 then Some (JObject (rev ((key, v) :: acc)), r4)
                              else None
                          | [] => None
                          end
                      | None => None
                      end
                    else None
                | [] => None
                end
            | None => None
            end
          else None
      | [] => None
      end
  end
with parse_elements (fuel : nat) (s : list Z) (acc : list jsval)
  {struct fuel} : option (jsval * list Z) :=
  match fuel with
  | O => None
  | S n =>
      match parse_value n s with
      | Some (v, r1) =>
          match skip_ws r1 with
          | e :: r2 =>
              if e =? 44 then parse_elements n r2 (v :: acc)
              else if e =? 93 then Some (JArray (rev (v :: acc)), r2)
              else None
          | [] => None
          end
      | None => None
      end
  end.

(** [JSON.parse(text)]: [None] is the SyntaxError it throws. *)
Definition JSON_parse (text : jsstring) : option jsval :=
  match parse_value (S (List.length text)) text with
  | Some (v, rest) => match skip_ws rest with [] => Some v | _ => None end
  | None => None
  end.

(** Test texts for [JSON.parse] are written with ['] for the double quote. *)
Definition jq (s : string) : jsstring :=
  map (fun c => if c =? 39 then 34 else c) (js s).

Example JSON_parse_obj :
  JSON_parse (jq " {'username':'u','password':0, 'username':[1.5e2,null,-0.25E-3, {}],
     'x':'a\u00e9\n'} ")
  = Some (JObject [(js "username", JString (js "u")); (js "password", JNumber 0 0);
                   (js "username", JArray [JNumber 15 1; JNull; JNumber (-25) (-5); JObject []]);
                   (js "x", JString [97; 233; 10])]).
Proof. vm_compute. reflexivity. Qed.

Example JSON_parse_rejects :
  map JSON_parse [jq "{"; jq ""; jq "01"; jq "[1,]"; jq "1."; jq "'a"; jq "{'a' 1}"; jq "nul"]
  = [None; None; None; None; None; None; None; None].
Proof. vm_compute. reflexivity. Qed.

(** ** Conversions to string, [JSON.stringify] and [String.prototype.replace] *)

(** [sep]-separated concatenation, as [Array.prototype.join]. *)
Fixpoint join (sep : jsstring) (l : list jsstring) : jsstring :=
  match l with
  | [] => []
  | [x] => x
  | x :: r => x ++ sep ++ join sep r
  end.

Section ToString.
  (** [Number::toString] of the double nearest to [m * 10^e]. *)
Variable Number_toString : Z -> Z -> jsstring.

  (** [ToString(ToPrimitive(v))], what [v + s] computes for [v] before the
      concatenation when [s] is a string; [None] is the TypeError it throws.
      For an object from [JSON.parse], [valueOf] is either its own
      (non-callable) property or [Object.prototype.valueOf], which returns
      the object itself; so the result is that of [toString]: an own
      [toString] property is not callable and ends in a TypeError, the
      inherited one gives ["[object Object]"].  An array goes through
      [Array.prototype.join], which maps [null] to the empty string. *)
Fixpoint js_ToString (v : jsval) : option jsstring :=
    match v with
    | JUndefined => Some (js "undefined")
    | JNull => Some (js "null")
    | JBool true => Some (js "true")
    | JBool false => Some (js "false")
    | JNumber m e => Some (Number_toString m e)
    | JString s => Some s
    | JObject fields =>
        if existsb (fun kv => jsstring_eqb (fst kv) (js "toString")) fields
        then None else Some (js "[object Object]")
    | JArray elems =>
        let fix elements (l : list jsval) : option (list jsstring) :=
          match l with
          | [] => Some []
          | x :: r =>
              match (match x with
                     | JUndefined | JNull => Some []
                     | _ => js_ToString x
                     end), elements r with
              | Some s, Some ss => Some (s :: ss)
              | _, _ => None
              end
          end in
        match elements elems with
        | Some ss => Some (join (js ",") ss)
        | None => None
        end
    end.
End ToString.

Definition hex_digit (n : Z) : Z := if n <? 10 then 48 + n else 87 + n.

(** [\uXXXX] with lowercase hexadecimal digits (UnicodeEscape). *)
Definition unicode_escape (c : Z) : list Z :=
  [92; 117; hex_digit (Z.shiftr c 12 mod 16); hex_digit (Z.shiftr c 8 mod 16);
   hex_digit (Z.shiftr c 4 mod 16); hex_digit (c mod 16)].

Definition is_lead_surrogate (c : Z) : bool := (55296 <=? c) && (c <=? 56319).
Definition is_trail_surrogate (c : Z) : bool := (56320 <=? c) && (c <=? 57343).

(** The body of QuoteJSONString. *)
Fixpoint quote_units (s : list Z) : list Z :=
  match s with
  | [] => []
  | c :: r =>
      if c =? 8 then [92; 98] ++ quote_units r
      else if c =? 9 then [92; 116] ++ quote_units r
      else if c =? 10 then [92; 110] ++ quote_units r
      else if c =? 12 then [92; 102] ++ quote_units r
      else if c =? 13 then [92; 114] ++ quote_units r
      else if c =? 34 then [92; 34] ++ quote_units r
      else if c =? 92 then [92; 92] ++ quote_units r
      else if c <? 32 then unicode_escape c ++ quote_units r
      else if is_lead_surrogate c then
        match r with
        | d :: r' =>
            if is_trail_surrogate d then c :: d :: quote_units r'
            else unicode_escape c ++ quote_units r
        | [] => unicode_escape c
        end
      else if is_trail_surrogate c then unicode_escape c ++ quote_units r
      else c :: quote_units r
  end.

Definition QuoteJSONString (s : jsstring) : jsstring := 34 :: quote_units s ++ [34].

(** [JSON.stringify] of an object literal whose properties hold strings or
    [undefined] (the only objects the handlers serialise); a property holding
    [undefined] is left out. *)
Definition JSON_stringify (props : list (jsstring * option jsstring)) : jsstring :=
  [123] ++
  join (js ",")
    (flat_map (fun kv =>
       match snd kv with
       | Some v => [QuoteJSONString (fst kv) ++ [58] ++ QuoteJSONString v]
       | None => []
       end) props)
  ++ [125].

(** The first position at which [pat] occurs in [s] ([String.prototype.indexOf]). *)
Fixpoint index_of (s pat : jsstring) : option nat :=
  match starts_with pat s with
  | Some _ => Some O
  | None =>
      match s with
      | [] => None
      | _ :: r => match index_of r pat with Some i => Some (S i) | None => None end
      end
  end.

(** [s.replace(pat, rep)] for a string pattern and a replacement without [$]:
    the first occurrence only; [s] itself when there is none. *)
Definition string_replace (s pat rep : jsstring) : jsstring :=
  match index_of s pat with
  | Some i => firstn i s ++ rep ++ skipn (i + List.length pat) s
  | None => s
  end.

(** ** Hashing: UTF-8, SHA-256 (FIPS 180-4), HMAC (RFC 2104), base64 (RFC 4648) *)

(** Bytes are integers in [0, 256). *)
Definition utf8_code_point (cp : Z) : list Z :=
  if cp <? 128 then [cp]
  else if cp <? 2048 then [192 + Z.shiftr cp 6; 128 + cp mod 64]
  else if cp <? 65536 then
    [224 + Z.shiftr cp 12; 128 + Z.shiftr cp 6 mod 64; 128 + cp mod 64]
  else [240 + Z.shiftr cp 18; 128 + Z.shiftr cp 12 mod 64;
        128 + Z.shiftr cp 6 mod 64; 128 + cp mod 64].

(** Node's UTF-8 encoding of a string: a surrogate pair is one code point,
    a lone surrogate becomes U+FFFD. *)
Fixpoint utf8_encode (s : jsstring) : list Z :=
  match s with
  | [] => []
  | c :: r =>
      if is_lead_surrogate c then
        match r with
        | d :: r' =>
            if is_trail_surrogate d
            then utf8_code_point (65536 + (c - 55296) * 1024 + (d - 56320)) ++ utf8_encode r'
            else utf8_code_point 65533 ++ utf8_encode r
        | [] => utf8_code_point 65533
        end
      else if is_trail_surrogate c then utf8_code_point 65533 ++ utf8_encode r
      else utf8_code_point c ++ utf8_encode r
  end.

Module SHA256.

Definition is_prime (n : Z) : bool :=
    (2 <=? n) &&
    forallb (fun d => negb (n mod d =? 0))
            (map Z.of_nat (seq 2 (Z.to_nat (Z.sqrt n) - 1))).

Definition primes : list Z := filter is_prime (map Z.of_nat (seq 2 310)).

  (** Integer cube root by bisection: [lo^3 <= n < hi^3] is kept. *)
Fixpoint cbrt_search (fuel : nat) (n lo hi : Z) : Z :=
    match fuel with
    | O => lo
    | S f =>
        if hi - lo <=? 1 then lo
        else let mid := (lo + hi) / 2 in
             if mid ^ 3 <=? n then cbrt_search f n mid hi else cbrt_search f n lo mid
    end.

  (** The first 32 bits of the fractional parts of the cube roots (K) and
      square roots (H0) of the first primes (sections 4.2.2 and 5.3.3). *)
Definition K : list Z :=
    map (fun p => cbrt_search 64 (p * 2 ^ 96) 0 (2 ^ 36) mod 2 ^ 32) primes.

Definition add32 (x y : Z) : Z := (x + y) mod 2 ^ 32.
Definition ROTR (n x : Z) : Z := Z.lor (Z.shiftr x n) (Z.shiftl x (32 - n) mod 2 ^ 32).
Definition SHR (n x : Z) : Z := Z.shiftr x n.
Definition Ch (x y z : Z) : Z := Z.lxor (Z.land x y) (Z.land (Z.lxor x (2 ^ 32 - 1)) z).
Definition Maj (x y z : Z) : Z := Z.lxor (Z.lxor (Z.land x y) (Z.land x z)) (Z.land y z).
Definition Sigma0 (x : Z) : Z := Z.lxor (Z.lxor (ROTR 2 x) (ROTR 13 x)) (ROTR 22 x).
Definition Sigma1 (x : Z) : Z := Z.lxor (Z.lxor (ROTR 6 x) (ROTR 11 x)) (ROTR 25 x).
Definition sigma0 (x : Z) : Z := Z.lxor (Z.lxor (ROTR 7 x) (ROTR 18 x)) (SHR 3 x).
Definition sigma1 (x : Z) : Z := Z.lxor (Z.lxor (ROTR 17 x) (ROTR 19 x)) (SHR 10 x).

Inductive state := St (a b c d e f g h : Z).

Definition H0 : state :=
    match map (fun p => Z.sqrt (p * 2 ^ 64) mod 2 ^ 32) primes with
    | a :: b :: c :: d :: e :: f :: g :: h :: _ => St a b c d e f g h
    | _ => St 0 0 0 0 0 0 0 0
    end.

Fixpoint be_bytes (n : nat) (x : Z) : list Z :=
    match n with
    | O => []
    | S n' => (Z.shiftr x (8 * Z.of_nat n') mod 256) :: be_bytes n' x
    end.

  (** Padding (section 5.1.1): a 1 bit, zeros, the 64-bit length in bits. *)
Definition pad (msg : list Z) : list Z :=
    let L := Z.of_nat (List.length msg) in
    msg ++ [128] ++ repeat 0 (Z.to_nat ((55 - L) mod 64)) ++ be_bytes 8 (8 * L).

Fixpoint blocks (fuel : nat) (l : list Z) : list (list Z) :=
    match fuel with
    | O => []
    | S f => match l with [] => [] | _ => firstn 64 l :: blocks f (skipn 64 l) end
    end.

Fixpoint be_words (l : list Z) : list Z :=
    match l with
    | a :: b :: c :: d :: r => (((a * 256 + b) * 256 + c) * 256 + d) :: be_words r
    | _ => []
    end.

  (** The message schedule (section 6.2.2, step 1), grown newest first. *)
Fixpoint schedule (n : nat) (rw : list Z) : list Z :=
    match n with
    | O => rw
    | S n' =>
        schedule n'
          (add32 (add32 (sigma1 (nth 1 rw 0)) (nth 6 rw 0))
                 (add32 (sigma0 (nth 14 rw 0)) (nth 15 rw 0)) :: rw)
    end.

Definition round (s : state) (kw : Z * Z) : state :=
    let (k, w) := kw in
    match s with
    | St a b c d e f g h =>
        let T1 := add32 (add32 (add32 h (Sigma1 e)) (add32 (Ch e f g) k)) w in
        let T2 := add32 (Sigma0 a) (Maj a b c) in
        St (add32 T1 T2) a b c (add32 d T1) e f g
    end.

Definition compress (H : state) (block : list Z) : state :=
    let W := rev (schedule 48 (rev (be_words block))) in
    match fold_left round (combine K W) H, H with
    | St a b c d e f g h, St a0 b0 c0 d0 e0 f0 g0 h0 =>
        St (add32 a a0) (add32 b b0) (add32 c c0) (add32 d d0)
           (add32 e e0) (add32 f f0) (add32 g g0) (add32 h h0)
    end.

Definition digest_bytes (s : state) : list Z :=
    match s with
    | St a b c d e f g h =>
        be_bytes 4 a ++ be_bytes 4 b ++ be_bytes 4 c ++ be_bytes 4 d ++
        be_bytes 4 e ++ be_bytes 4 f ++ be_bytes 4 g ++ be_bytes 4 h
    end.

Definition hash (msg : list Z) : list Z :=
    let p := pad msg in
    digest_bytes (fold_left compress (blocks (List.length p) p) H0).

End SHA256.

(** HMAC-SHA-256 with a 64-byte block. *)
Definition hmac_sha256 (key msg : list Z) : list Z :=
  let k0 := if Nat.ltb 64 (List.length key) then SHA256.hash key else key in
  let k := k0 ++ repeat 0 (64 - List.length k0) in
  SHA256.hash (map (Z.lxor 92) k ++ SHA256.hash (map (Z.lxor 54) k ++ msg)).

Definition base64_char (i : Z) : Z :=
  if i <? 26 then 65 + i
  else if i <? 52 then 71 + i
  else if i <? 62 then i - 4
  else if i =? 62 then 43 else 47.

(** [Buffer.toString('base64')]: standard alphabet, [=] padding. *)
Fixpoint base64_encode (l : list Z) : jsstring :=
  match l with
  | a :: b :: c :: r =>
      let n := (a * 256 + b) * 256 + c in
      [base64_char (Z.shiftr n 18); base64_char (Z.shiftr n 12 mod 64);
       base64_char (Z.shiftr n 6 mod 64); base64_char (n mod 64)] ++ base64_encode r
  | [a; b] =>
      let n := (a * 256 + b) * 256 in
      [base64_char (Z.shiftr n 18); base64_char (Z.shiftr n 12 mod 64);
       base64_char (Z.shiftr n 6 mod 64); 61]
  | [a] =>
      let n := a * 65536 in
      [base64_char (Z.shiftr n 18); base64_char (Z.shiftr n 12 mod 64); 61; 61]
  | [] => []
  end.

Example sha256_abc :
  SHA256.hash (js "abc") =
  SHA256.be_bytes 32 0xba7816bf8f01cfea414140de5dae2223b00361a396177a9cb410ff61f20015ad.
Proof. vm_compute. reflexivity. Qed.

Example hmac_sha256_fox :
  base64_encode (hmac_sha256 (js "key") (js "The quick brown fox jumps over the lazy dog"))
  = js "97yD9DBThCSxMpjmqm+xQ+9NWaFJRhdZl0edvC0aPNg=".
Proof. vm_compute. reflexivity. Qed.

Example hmac_sha256_long_key :
  base64_encode (hmac_sha256 (repeat 107 100) (repeat 120 130))
  = js "2EnpO7OsH/CVuStjcYuv4nAeqAOo5oCH4SYtGyReZ2U=".
Proof. vm_compute. reflexivity. Qed.

Example hmac_sha256_utf8 :
  base64_encode (hmac_sha256 (utf8_encode [233]) (utf8_encode [97; 233; 8364; 55357; 56832]))
  = js "8KY6NM4SRqC2ifJ0N652EZnFdZgjdwNsZaMRFXgbKmM=".
Proof. vm_compute. reflexivity. Qed.

(** ** Requests, responses and the Cognito client *)

(** [APIGatewayProxyEvent], the fields the handlers read.  [headers] may be
    [null]; [body] is [string | null]. *)
Record APIGatewayProxyEvent := mkEvent {
  headers : option (list (jsstring * jsstring));
  body : option jsstring
}.

(** [APIGatewayProxyResult]: [{ statusCode, body }]. *)
Record APIGatewayProxyResult := mkResult {
  statusCode : Z;
  result_body : jsstring
}.

(** [event.headers?.Authorization]. *)
Definition header_Authorization (ev : APIGatewayProxyEvent) : option jsstring :=
  match headers ev with
  | Some hs =>
      match find (fun kv => jsstring_eqb (fst kv) (js "Authorization")) hs with
      | Some (_, v) => Some v
      | None => None
      end
  | None => None
  end.

(** The parameter objects given to the Cognito client.  [USERNAME],
    [PASSWORD], [Username], [Password], [ConfirmationCode] and the e-mail
    attribute hold whatever [JSON.parse] produced for them. *)
Record GetUserRequest := { AccessToken : jsstring }.

Record InitiateAuthRequest := {
  AuthFlow : jsstring;
  ia_ClientId : jsstring;
  USERNAME : jsval;
  PASSWORD : jsval;
  SECRET_HASH : jsstring
}.

Record SignUpRequest := {
  su_ClientId : jsstring;
  su_Password : jsval;
  su_Username : jsval;
  UserAttributes : list (jsstring * jsval);
  su_SecretHash : jsstring
}.

Record ConfirmSignUpRequest := {
  cs_ClientId : jsstring;
  ConfirmationCode : jsval;
  cs_Username : jsval;
  cs_SecretHash : jsstring
}.

Inductive CognitoCall :=
| getUser (params : GetUserRequest)
| initiateAuth (params : InitiateAuthRequest)
| signUp (params : SignUpRequest)
| confirmSignUp (params : ConfirmSignUpRequest).

(** The part of a fulfilled [initiateAuth] response the code reads:
    [response.AuthenticationResult?.AccessToken]; the other calls' results
    are not read. *)
Record AuthenticationResultType := { ar_AccessToken : option jsstring }.

(** How the promise of a call settles: fulfilled with a response, or
    rejected with an [Error] whose [message] may be [undefined]. *)
Inductive Reply :=
| Fulfilled (AuthenticationResult : option AuthenticationResultType)
| Rejected (message : option jsstring).

(** Thrown values: the engine's SyntaxError and TypeError, and the errors
    the Cognito client rejects with. *)
Inductive exn :=
| SyntaxError
| TypeError
| CognitoError (message : option jsstring).

(** [(error as Error).message]; the engine's own error texts are not
    modelled (no such error reaches a [catch] in these handlers). *)
Definition error_message (e : exn) : option jsstring :=
  match e with
  | CognitoError m => m
  | SyntaxError | TypeError => None
  end.

(** An async function body: it returns, throws, or awaits a Cognito call and
    continues with how that call settled. *)
Inductive Prog (A : Type) :=
| Ret (a : A)
| Throw (e : exn)
| Await (c : CognitoCall) (k : Reply -> Prog A).

Arguments Ret {A} a.
Arguments Throw {A} e.
Arguments Await {A} c k.

Fixpoint bind {A B} (p : Prog A) (f : A -> Prog B) : Prog B :=
  match p with
  | Ret a => f a
  | Throw e => Throw e
  | Await c k => Await c (fun r => bind (k r) f)
  end.

Notation "'let*' x ':=' p 'in' q" := (bind p (fun x => q))
  (at level 200, x name, p at level 100, q at level 200).

(** [try { p } catch (error) { h(error) }]. *)
Fixpoint try_catch {A} (p : Prog A) (h : exn -> Prog A) : Prog A :=
  match p with
  | Ret a => Ret a
  | Throw e => h e
  | Await c k => Await c (fun r => try_catch (k r) h)
  end.

(** [await cognito.<call>(params).promise()]. *)
Definition await_promise (c : CognitoCall) : Prog (option AuthenticationResultType) :=
  Await c (fun r => match r with
                    | Fulfilled res => Ret res
                    | Rejected m => Throw (CognitoError m)
                    end).

(** [JSON.parse(text)] as a statement that may throw. *)
Definition JSON_parse_prog (text : jsstring) : Prog jsval :=
  match JSON_parse text with
  | Some v => Ret v
  | None => Throw SyntaxError
  end.

(** The check destructuring [const { .. } = v] performs first
    (RequireObjectCoercible). *)
Definition require_object_coercible (v : jsval) : Prog unit :=
  match v with
  | JUndefined | JNull => Throw TypeError
  | _ => Ret tt
  end.

(** What an invocation ends in, given how the provider settles each call. *)
Inductive Outcome (A : Type) :=
| Returned (a : A)
| Faulted (e : exn).

Arguments Returned {A} a.
Arguments Faulted {A} e.

Fixpoint run {A} (provider : CognitoCall -> Reply) (p : Prog A) : Outcome A :=
  match p with
  | Ret a => Returned a
  | Throw e => Faulted e
  | Await c k => run provider (k (provider c))
  end.

(** The Cognito calls made, in order. *)
Fixpoint calls {A} (provider : CognitoCall -> Reply) (p : Prog A) : list CognitoCall :=
  match p with
  | Ret _ | Throw _ => []
  | Await c k => c :: calls provider (k (provider c))
  end.


(** [calculateSecretHash] (identical in both files): HMAC-SHA-256 keyed with
    [cognitoClientSecret] over [username + cognitoClientId], as base64.
    The key and the data are strings, hashed as their UTF-8 bytes; the
    concatenation converts [username] to a string first, which throws for
    some objects. *)
Definition calculateSecretHash (Number_toString : Z -> Z -> jsstring)
  (cognitoClientId cognitoClientSecret : jsstring) (username : jsval) : Prog jsstring :=
  match js_ToString Number_toString username with
  | Some u =>
      Ret (base64_encode
             (hmac_sha256 (utf8_encode cognitoClientSecret)
                          (utf8_encode (u ++ cognitoClientId))))
  | None => Throw TypeError
  end.

(** ** src/unnamed/part_000 *)

Module Part000.
Section Handlers.
  (** [Number::toString], and the two configuration constants read from the
      environment at start-up ([process.env.AWS_COGNITO_CLIENT_ID || ''],
      [process.env.AWS_COGNITO_CLIENT_SECRET || '']). *)
Variable Number_toString : Z -> Z -> jsstring.
Variables cognitoClientId cognitoClientSecret : jsstring.

Definition respond (statusCode : Z) (message : jsstring) : APIGatewayProxyResult :=
    mkResult statusCode (JSON_stringify [(js "message", Some message)]).

Definition authorize (event : APIGatewayProxyEvent) : Prog APIGatewayProxyResult :=
    match header_Authorization event with
    | Some authorization =>
        if jsstring_eqb authorization [] then
          Ret (respond 401 (js "Missing Authorization header"))
        else
          let accessToken := string_replace authorization (js "Bearer ") [] in
          let params := {| AccessToken := accessToken |} in
          try_catch
            (let* _ := await_promise (getUser params) in
             Ret (respond 200 (js "Authorized")))
            (fun error =>
               Ret (respond 401 (or_default (error_message error) (js "Unauthorized"))))
    | None => Ret (respond 401 (js "Missing Authorization header"))
    end.

Definition authenticate (event : APIGatewayProxyEvent) : Prog APIGatewayProxyResult :=
    match body event with
    | Some text =>
        if jsstring_eqb text [] then Ret (respond 400 (js "Missing body")) else
        let* parsed := JSON_parse_prog text in
        let* _ := require_object_coercible parsed in
        let username := get_property parsed (js "username") in
        let password := get_property parsed (js "password") in
        if negb (truthy username) || negb (truthy password) then
          Ret (respond 400 (js "Missing username or password"))
        else
        let* secretHash :=
          calculateSecretHash Number_toString cognitoClientId cognitoClientSecret username in
        let params := {| AuthFlow := js "USER_PASSWORD_AUTH";
                         ia_ClientId := cognitoClientId;
                         USERNAME := username;
                         PASSWORD := password;
                         SECRET_HASH := secretHash |} in
        try_catch
          (let* response := await_promise (initiateAuth params) in
           let accessToken :=
             match response with Some r => ar_AccessToken r | None => None end in
           match accessToken with
           | Some token =>
               if jsstring_eqb token [] then
                 Ret (respond 400 (js "Invalid username or password"))
               else Ret (respond 200 token)
           | None => Ret (respond 400 (js "Invalid username or password"))
           end)
          (fun error =>
             Ret (respond 400 (or_default (error_message error) (js "Authentication failed"))))
    | None => Ret (respond 400 (js "Missing body"))
    end.

Definition register (event : APIGatewayProxyEvent) : Prog APIGatewayProxyResult :=
    match body event with
    | Some text =>
        if jsstring_eqb text [] then Ret (respond 400 (js "Missing body")) else
        let* parsed := JSON_parse_prog text in
        let* _ := require_object_coercible parsed in
        let email := get_property parsed (js "email") in
        let username := get_property parsed (js "username") in
        let password := get_property parsed (js "password") in
        if negb (truthy email) || negb (truthy username) || negb (truthy password) then
          Ret (respond 400 (js "Missing email, username, or password"))
        else
        let* secretHash :=
          calculateSecretHash Number_toString cognitoClientId cognitoClientSecret username in
        let params := {| su_ClientId := cognitoClientId;
                         su_Password := password;
                         su_Username := username;
                         UserAttributes := [(js "email", email)];
                         su_SecretHash := secretHash |} in
        try_catch
          (let* _ := await_promise (signUp params) in
           Ret (respond 200 (js "User created")))
          (fun error =>
             Ret (respond 400 (or_default (error_message error) (js "User registration failed"))))
    | None => Ret (respond 400 (js "Missing body"))
    end.

Definition confirm (event : APIGatewayProxyEvent) : Prog APIGatewayProxyResult :=
    match body event with
    | Some text =>
        if jsstring_eqb text [] then Ret (respond 400 (js "Missing body")) else
        let* parsed := JSON_parse_prog text in
        let* _ := require_object_coercible parsed in
        let username := get_property parsed (js "username") in
        let code := get_property parsed (js "code") in
        if negb (truthy username) || negb (truthy code) then
          Ret (respond 400 (js "Missing username or code"))
        else
        let* secretHash :=
          calculateSecretHash Number_toString cognitoClientId cognitoClientSecret username in
        let params := {| cs_ClientId := cognitoClientId;
                         ConfirmationCode := code;
                         cs_Username := username;
                         cs_SecretHash := secretHash |} in
        try_catch
          (let* _ := await_promise (confirmSignUp params) in
           Ret (respond 200 (js "User confirmed")))
          (fun error =>
             Ret (respond 400 (or_default (error_message error) (js "Confirmation failed"))))
    | None => Ret (respond 400 (js "Missing body"))
    end.
End Handlers.
End Part000.

(** ** src/src/index.ts, lines 1-201 *)

Module IndexTs.
Section Handlers.
Variable Number_toString : Z -> Z -> jsstring.
Variables cognitoClientId cognitoClientSecret : jsstring.

  (** [{ statusCode, body: JSON.stringify({ message }) }] *)
Definition message_result (statusCode : Z) (message : option jsstring) : APIGatewayProxyResult :=
    mkResult statusCode (JSON_stringify [(js "message", message)]).

Definition authorize (event : APIGatewayProxyEvent) : Prog APIGatewayProxyResult :=
    match header_Authorization event with
    | Some authorization =>
        if jsstring_eqb authorization [] then
          Ret (message_result 401 (Some (js "Missing Authorization header")))
        else
          let accessToken := string_replace authorization (js "Bearer ") [] in
          let params := {| AccessToken := accessToken |} in
          try_catch
            (let* _ := await_promise (getUser params) in
             Ret (message_result 200 (Some (js "Authorized"))))
            (fun error => Ret (message_result 401 (error_message error)))
    | None => Ret (message_result 401 (Some (js "Missing Authorization header")))
    end.

Definition authenticate (event : APIGatewayProxyEvent) : Prog APIGatewayProxyResult :=
    match body event with
    | Some text =>
        if jsstring_eqb text [] then Ret (message_result 400 (Some (js "Missing body"))) else
        let* parsed := JSON_parse_prog text in
        let* _ := require_object_coercible parsed in
        let username := get_property parsed (js "username") in
        let password := get_property parsed (js "password") in
        if negb (truthy username) || negb (truthy password) then
          Ret (message_result 400 (Some (js "Missing username or password")))
        else
        let* secretHash :=
          calculateSecretHash Number_toString cognitoClientId cognitoClientSecret username in
        let params := {| AuthFlow := js "USER_PASSWORD_AUTH";
                         ia_ClientId := cognitoClientId;
                         USERNAME := username;
                         PASSWORD := password;
                         SECRET_HASH := secretHash |} in
        try_catch
          (let* response := await_promise (initiateAuth params) in
           let accessToken :=
             match response with Some r => ar_AccessToken r | None => None end in
           match accessToken with
           | Some token =>
               if jsstring_eqb token [] then
                 Ret (message_result 400 (Some (js "Invalid username or password")))
               else Ret (mkResult 200 (JSON_stringify [(js "accessToken", Some token)]))
           | None => Ret (message_result 400 (Some (js "Invalid username or password")))
           end)
          (fun error => Ret (message_result 400 (error_message error)))
    | None => Ret (message_result 400 (Some (js "Missing body")))
    end.

Definition register (event : APIGatewayProxyEvent) : Prog APIGatewayProxyResult :=
    match body event with
    | Some text =>
        if jsstring_eqb text [] then Ret (message_result 400 (Some (js "Missing body"))) else
        let* parsed := JSON_parse_prog text in
        let* _ := require_object_coercible parsed in
        let email := get_property parsed (js "email") in
        let username := get_property parsed (js "username") in
        let password := get_property parsed (js "password") in
        if negb (truthy email) || negb (truthy username) || negb (truthy password) then
          Ret (message_result 400 (Some (js "Missing email, username or password")))
        else
        let* secretHash :=
          calculateSecretHash Number_toString cognitoClientId cognitoClientSecret username in
        let params := {| su_ClientId := cognitoClientId;
                         su_Password := password;
                         su_Username := username;
                         UserAttributes := [(js "email", email)];
                         su_SecretHash := secretHash |} in
        try_catch
          (let* _ := await_promise (signUp params) in
           Ret (message_result 200 (Some (js "User created"))))
          (fun error => Ret (message_result 400 (error_message error)))
    | None => Ret (message_result 400 (Some (js "Missing body")))
    end.

Definition confirm (event : APIGatewayProxyEvent) : Prog APIGatewayProxyResult :=
    match body event with
    | Some text =>
        if jsstring_eqb text [] then Ret (message_result 400 (Some (js "Missing body"))) else
        let* parsed := JSON_parse_prog text in
        let* _ := require_object_coercible parsed in
        let username := get_property parsed (js "username") in
        let code := get_property parsed (js "code") in
        if negb (truthy username) || negb (truthy code) then
          Ret (message_result 400 (Some (js "Missing username or code")))
        else
        let* secretHash :=
          calculateSecretHash Number_toString cognitoClientId cognitoClientSecret username in
        let params := {| cs_ClientId := cognitoClientId;
                         ConfirmationCode := code;
                         cs_Username := username;
                         cs_SecretHash := secretHash |} in
        try_catch
          (let* _ := await_promise (confirmSignUp params) in
           Ret (message_result 200 (Some (js "User confirmed"))))
          (fun error => Ret (message_result 400 (error_message error)))
    | None => Ret (message_result 400 (Some (js "Missing body")))
    end.
End Handlers.
End IndexTs.

(** ** src/src/index.ts, lines 245-302: the second [authenticate] *)

Module IndexTsTail.
Section Handlers.
Variable Number_toString : Z -> Z -> jsstring.
Variables cognitoClientId cognitoClientSecret : jsstring.

  (** No check of the body and no [try]: [JSON.parse(null)] parses the
      text ["null"], and a rejected [initiateAuth] propagates. *)
Definition authenticate (event : APIGatewayProxyEvent) : Prog APIGatewayProxyResult :=
    let text := match body event with Some t => t | None => js "null" end in
    let* parsed := JSON_parse_prog text in
    let* _ := require_object_coercible parsed in
    let username := get_property parsed (js "username") in
    let password := get_property parsed (js "password") in
    if negb (truthy username) || negb (truthy password) then
      Ret (IndexTs.message_result 400 (Some (js "Missing username or password")))
    else
    let* secretHash :=
      calculateSecretHash Number_toString cognitoClientId cognitoClientSecret username in
    let params := {| AuthFlow := js "USER_PASSWORD_AUTH";
                     ia_ClientId := cognitoClientId;
                     USERNAME := username;
                     PASSWORD := password;
                     SECRET_HASH := secretHash |} in
    let* response := await_promise (initiateAuth params) in
    let accessToken := match response with Some r => ar_AccessToken r | None => None end in
    match accessToken with
    | Some token =>
        if jsstring_eqb token [] then
          Ret (IndexTs.message_result 400 (Some (js "Invalid username or password")))
        else Ret (mkResult 200 (JSON_stringify [(js "accessToken", Some token)]))
    | None => Ret (IndexTs.message_result 400 (Some (js "Invalid username or password")))
    end.
End Handlers.
End IndexTsTail.

(** ** Running handlers on concrete requests *)

(** A [Number::toString] for the tests: only its type matters to them. *)
Definition test_toString (m e : Z) : jsstring := js "n".

Definition test_client_id : jsstring := js "client".
Definition test_client_secret : jsstring := js "secret".

Definition body_event (text : string) : APIGatewayProxyEvent :=
  mkEvent None (Some (jq text)).

Definition header_event (authorization : jsstring) : APIGatewayProxyEvent :=
  mkEvent (Some [(js "Authorization", authorization)]) None.

Definition token_result (t : string) : option AuthenticationResultType :=
  Some {| ar_AccessToken := Some (js t) |}.

Example authenticate_example :
  run (fun _ => Fulfilled (token_result "tok"))
      (IndexTs.authenticate test_toString test_client_id test_client_secret
         (body_event "{'username':'alice','password':'pw'}"))
  = Returned (mkResult 200 (jq "{'accessToken':'tok'}")).
Proof. vm_compute. reflexivity. Qed.

Example authenticate_call_example :
  calls (fun _ => Fulfilled None)
      (Part000.authenticate test_toString test_client_id test_client_secret
         (body_event "{'username':'alice','password':'pw'}"))
  = [initiateAuth {| AuthFlow := js "USER_PASSWORD_AUTH"; ia_ClientId := js "client";
                     USERNAME := JString (js "alice"); PASSWORD := JString (js "pw");
                     SECRET_HASH := base64_encode (hmac_sha256 (js "secret") (js "aliceclient")) |}].
Proof. vm_compute. reflexivity. Qed.

Example calculateSecretHash_empty_secret :
  calculateSecretHash test_toString (js "client") [] (JString (js "alice"))
  = Ret (js "Bn2fN9EE/KvFHthplOQhQb8ch6DTYpKlSTsVHRHKp3Y=").
Proof. vm_compute. reflexivity. Qed.

Example authorize_example :
  run (fun _ => Rejected (Some (js "Access Token has expired")))
      (Part000.authorize (header_event (js "Bearer abc")))
  = Returned (mkResult 401 (jq "{'message':'Access Token has expired'}")).
Proof. vm_compute. reflexivity. Qed.

(** ** Lemmas on programs *)

Lemma run_bind {A B} (provider : CognitoCall -> Reply) (p : Prog A) (f : A -> Prog B) :
  run provider (bind p f) =
  match run provider p with
  | Returned a => run provider (f a)
  | Faulted e => Faulted e
  end.
Proof. induction p as [a|e|c k IH]; simpl; auto. Qed.

Lemma run_try_catch {A} (provider : CognitoCall -> Reply) (p : Prog A) (h : exn -> Prog A) :
  run provider (try_catch p h) =
  match run provider p with
  | Returned a => Returned a
  | Faulted e => run provider (h e)
  end.
Proof. induction p as [a|e|c k IH]; simpl; auto. Qed.

(** Every value [p] may return satisfies [P], whatever the replies. *)
Inductive returns_only {A} (P : A -> Prop) : Prog A -> Prop :=
| ro_ret a : P a -> returns_only P (Ret a)
| ro_throw e : returns_only P (Throw e)
| ro_await c k : (forall r, returns_only P (k r)) -> returns_only P (Await c k).

Lemma returns_only_bind {A B} (P : B -> Prop) (p : Prog A) (f : A -> Prog B) :
  (forall a, returns_only P (f a)) -> returns_only P (bind p f).
Proof.
  intros Hf; induction p as [a|e|c k IH]; simpl; [apply Hf | constructor | ].
  constructor; intro r; apply IH.
Qed.

Lemma returns_only_try_catch {A} (P : A -> Prop) (p : Prog A) (h : exn -> Prog A) :
  returns_only P p -> (forall e, returns_only P (h e)) -> returns_only P (try_catch p h).
Proof.
  intros Hp Hh; induction Hp; simpl; [constructor; assumption | apply Hh | ].
  constructor; assumption.
Qed.

Lemma returns_only_run {A} (P : A -> Prop) provider (p : Prog A) a :
  returns_only P p -> run provider p = Returned a -> P a.
Proof.
  intros Hp; induction Hp; simpl; intro E; try discriminate.
  - injection E as <-; assumption.
  - eauto.
Qed.

Lemma jsstring_eqb_nil (s : jsstring) : jsstring_eqb s [] = true <-> s = [].
Proof. destruct s; simpl; split; congruence. Qed.

Lemma JSON_parse_nil : JSON_parse [] = None.
Proof. reflexivity. Qed.

Lemma parse_number_not_undefined s r : parse_number s <> Some (JUndefined, r).
Proof.
  unfold parse_number.
  repeat match goal with
         | |- context [match ?x with _ => _ end] => destruct x
         | |- context [if ?b then _ else _] => destruct b
         end; congruence.
Qed.

Lemma parser_not_undefined (n : nat) :
  (forall s r, parse_value n s <> Some (JUndefined, r)) /\
  (forall s acc r, parse_members n s acc <> Some (JUndefined, r)) /\
  (forall s acc r, parse_elements n s acc <> Some (JUndefined, r)).
Proof.
  induction n as [|n IH]; [repeat split; simpl; congruence|].
  destruct IH as (IHv & IHm & IHe).
  repeat split; intros; simpl.
  - destruct (skip_ws s) as [|c r'] ; [congruence|].
    repeat match goal with
           | |- context [match ?x with _ => _ end] =>
               lazymatch x with
               | parse_members _ _ _ => apply IHm
               | parse_elements _ _ _ => apply IHe
               | parse_number _ => apply parse_number_not_undefined
               | _ => destruct x
               end
           | |- context [if ?b then _ else _] => destruct b
           end; try congruence; try apply IHm; try apply IHe;
      try apply parse_number_not_undefined.
  - destruct (skip_ws s) as [|c r']; [congruence|].
    repeat match goal with
           | |- context [match ?x with _ => _ end] =>
               lazymatch x with
               | parse_members _ _ _ => apply IHm
               | _ => destruct x
               end
           | |- context [if ?b then _ else _] => destruct b
           end; try congruence; try apply IHm.
  - repeat match goal with
           | |- context [match ?x with _ => _ end] =>
               lazymatch x with
               | parse_elements _ _ _ => apply IHe
               | _ => destruct x
               end
           | |- context [if ?b then _ else _] => destruct b
           end; try congruence; try apply IHe.
Qed.

Lemma JSON_parse_not_undefined text : JSON_parse text <> Some JUndefined.
Proof.
  unfold JSON_parse.
  destruct (parse_value _ text) as [[v rest]|] eqn:E; [|congruence].
  destruct (skip_ws rest); [|congruence].
  intro H; injection H as ->.
  exact (proj1 (parser_not_undefined _) _ _ E).
Qed.

Create HintDb handlers.
Hint Constructors returns_only : handlers.

(** Proves [returns_only P (handler ...)] by following the handler's code. *)
Ltac returns_only_by_cases :=
  repeat first
    [ apply returns_only_bind; intro
    | apply returns_only_try_catch; [|intro]
    | apply ro_await; intro
    | apply ro_throw
    | apply ro_ret; simpl; auto
    | match goal with
      | |- context [if ?b then _ else _] => destruct b
      | |- context [match ?x with _ => _ end] => destruct x
      end ].

Definition status_200_or_401 (r : APIGatewayProxyResult) : Prop :=
  statusCode r = 200 \/ statusCode r = 401.

Definition status_200_or_400 (r : APIGatewayProxyResult) : Prop :=
  statusCode r = 200 \/ statusCode r = 400.

Lemma authorize_statuses event :
  returns_only status_200_or_401 (Part000.authorize event) /\
  returns_only status_200_or_401 (IndexTs.authorize event).
Proof.
  unfold status_200_or_401; split;
    [unfold Part000.authorize | unfold IndexTs.authorize]; returns_only_by_cases.
Qed.

Lemma body_handler_statuses N cid sec event :
  returns_only status_200_or_400 (Part000.authenticate N cid sec event) /\
  returns_only status_200_or_400 (Part000.register N cid sec event) /\
  returns_only status_200_or_400 (Part000.confirm N cid sec event) /\
  returns_only status_200_or_400 (IndexTs.authenticate N cid sec event) /\
  returns_only status_200_or_400 (IndexTs.register N cid sec event) /\
  returns_only status_200_or_400 (IndexTs.confirm N cid sec event) /\
  returns_only status_200_or_400 (IndexTsTail.authenticate N cid sec event).
Proof.
  unfold status_200_or_400;
    repeat split;
    [ unfold Part000.authenticate | unfold Part000.register | unfold Part000.confirm
    | unfold IndexTs.authenticate | unfold IndexTs.register | unfold IndexTs.confirm
    | unfold IndexTsTail.authenticate ];
    returns_only_by_cases.
Qed.

Lemma message_result_respond code m :
  IndexTs.message_result code (Some m) = Part000.respond code m.
Proof. reflexivity. Qed.

Lemma base64_of_digest_44 (s : SHA256.state) :
  List.length (base64_encode (SHA256.digest_bytes s)) = 44%nat /\
  nth 43 (base64_encode (SHA256.digest_bytes s)) 0 = 61.
Proof. destruct s; split; reflexivity. Qed.

(** ** JSON.stringify, then JSON.parse *)

(** A UTF-16 code unit. *)
Definition unit_ok (c : Z) : bool := (0 <=? c) && (c <? 65536).

Definition units_ok (s : jsstring) : bool := forallb unit_ok s.

Lemma hex_value_digit n : 0 <= n < 16 -> hex_value (hex_digit n) = Some n.
Proof.
  intro H; unfold hex_digit, hex_value.
  destruct (Z.ltb_spec n 10).
  - replace ((48 <=? 48 + n) && (48 + n <=? 57)) with true by (symmetry; apply andb_true_iff; split; apply Z.leb_le; lia).
    f_equal; lia.
  - replace ((48 <=? 87 + n) && (87 + n <=? 57)) with false
      by (symmetry; apply andb_false_iff; right; apply Z.leb_gt; lia).
    replace ((97 <=? 87 + n) && (87 + n <=? 102)) with true
      by (symmetry; apply andb_true_iff; split; apply Z.leb_le; lia).
    f_equal; lia.
Qed.

Lemma hex4_unicode_escape c :
  unit_ok c = true ->
  exists r, unicode_escape c = 92 :: 117 :: r /\
  forall rest, match r ++ rest with
               | a :: b :: c' :: d :: r'' => (hex4 a b c' d, r'') = (Some c, rest)
               | _ => False
               end.
Proof.
  unfold unit_ok; intro H; apply andb_true_iff in H as [H1 H2].
  apply Z.leb_le in H1; apply Z.ltb_lt in H2.
  eexists; split; [reflexivity|]; intro rest; simpl.
  rewrite !Z.shiftr_div_pow2 by lia.
  unfold hex4.
  rewrite !hex_value_digit by (apply Z.mod_pos_bound; lia).
  f_equal; f_equal.
  change (2 ^ 12) with 4096; change (2 ^ 8) with 256; change (2 ^ 4) with 16.
  replace (c / 4096) with (c / 16 / 16 / 16) by (rewrite !Z.div_div; reflexivity || lia).
  replace (c / 256) with (c / 16 / 16) by (rewrite !Z.div_div; reflexivity || lia).
  assert (B3 : 0 <= c / 16 / 16 / 16 < 16)
    by (rewrite !Z.div_div by lia; split; [apply Z.div_pos | apply Z.div_lt_upper_bound]; lia).
  rewrite (Z.mod_small (c / 16 / 16 / 16) 16) by exact B3.
  pose proof (Z.div_mod c 16 ltac:(lia)).
  pose proof (Z.div_mod (c / 16) 16 ltac:(lia)).
  pose proof (Z.div_mod (c / 16 / 16) 16 ltac:(lia)).
  lia.
Qed.

Lemma parse_unicode_escape c s acc :
  unit_ok c = true ->
  parse_string_chars (unicode_escape c ++ s) acc = parse_string_chars s (c :: acc).
Proof.
  intro H; destruct (hex4_unicode_escape c H) as (r0 & E & F).
  rewrite E; specialize (F s); simpl.
  destruct (r0 ++ s) as [|a [|b [|c' [|d r'']]]]; try contradiction.
  injection F as -> ->; reflexivity.
Qed.

Lemma parse_raw_unit c s acc :
  32 <= c -> c <> 34 -> c <> 92 ->
  parse_string_chars (c :: s) acc = parse_string_chars s (c :: acc).
Proof.
  intros H1 H2 H3; simpl.
  rewrite (proj2 (Z.eqb_neq c 34) H2), (proj2 (Z.eqb_neq c 92) H3).
  replace (c <? 32) with false by (symmetry; apply Z.ltb_ge; lia).
  reflexivity.
Qed.

(** [JSON.parse] reads back, from the text [QuoteJSONString] writes, the
    string it was given. *)
Lemma parse_quote_units s acc rest :
  units_ok s = true ->
  parse_string_chars (quote_units s ++ 34 :: rest) acc = Some (rev acc ++ s, rest).
Proof.
  remember (List.length s) as n eqn:Hn.
  assert (Hle : (List.length s <= n)%nat) by lia; clear Hn.
  revert s acc Hle; induction n as [|n IH]; intros s acc Hle Hok.
  - destruct s; [|simpl in Hle; lia].
    simpl; rewrite app_nil_r; reflexivity.
  - destruct s as [|c r]; [simpl; rewrite app_nil_r; reflexivity|].
    simpl in Hle, Hok; apply andb_true_iff in Hok as [Hc Hr].
    assert (Hrl : (List.length r <= n)%nat) by lia.
    assert (Step : forall u acc', parse_string_chars (quote_units r ++ 34 :: rest) (u :: acc')
                                  = Some (rev acc' ++ u :: r, rest)).
    { intros u acc'; rewrite IH by assumption; simpl; rewrite <- app_assoc; reflexivity. }
    cbn [quote_units].
    destruct (Z.eqb_spec c 8) as [->|N8]; [exact (Step 8 acc)|].
    destruct (Z.eqb_spec c 9) as [->|N9]; [exact (Step 9 acc)|].
    destruct (Z.eqb_spec c 10) as [->|N10]; [exact (Step 10 acc)|].
    destruct (Z.eqb_spec c 12) as [->|N12]; [exact (Step 12 acc)|].
    destruct (Z.eqb_spec c 13) as [->|N13]; [exact (Step 13 acc)|].
    destruct (Z.eqb_spec c 34) as [->|N34]; [exact (Step 34 acc)|].
    destruct (Z.eqb_spec c 92) as [->|N92]; [exact (Step 92 acc)|].
    destruct (Z.ltb_spec c 32) as [L32|G32].
    { rewrite <- app_assoc, parse_unicode_escape by assumption; apply Step. }
    destruct (is_lead_surrogate c) eqn:Lead.
    + destruct r as [|d r'].
      * rewrite parse_unicode_escape by assumption; simpl; reflexivity.
      * simpl in Hr; apply andb_true_iff in Hr as [Hd Hr'].
        destruct (is_trail_surrogate d) eqn:Trail.
        -- unfold is_trail_surrogate in Trail; apply andb_true_iff in Trail as [T1 T2].
           apply Z.leb_le in T1.
           simpl app; rewrite parse_raw_unit by lia; rewrite parse_raw_unit by lia.
           rewrite IH by (simpl in Hrl; lia || assumption).
           simpl; rewrite <- !app_assoc; reflexivity.
        -- rewrite <- app_assoc, parse_unicode_escape by assumption.
           apply Step.
    + destruct (is_trail_surrogate c) eqn:Trail.
      * rewrite <- app_assoc, parse_unicode_escape by assumption; apply Step.
      * simpl app; rewrite parse_raw_unit by lia; apply Step.
Qed.

Lemma JSON_stringify_single_text k m :
  JSON_stringify [(k, Some m)] =
  123 :: 34 :: quote_units k ++ 34 :: 58 :: 34 :: quote_units m ++ [34; 125].
Proof.
  unfold JSON_stringify, QuoteJSONString; simpl.
  rewrite <- !app_assoc; simpl; rewrite <- !app_assoc; reflexivity.
Qed.

Lemma parse_value_single fuel k m rest :
  (3 <= fuel)%nat -> units_ok k = true -> units_ok m = true ->
  parse_value fuel (123 :: 34 :: quote_units k ++ 34 :: 58 :: 34 :: quote_units m ++ 34 :: 125 :: rest)
  = Some (JObject [(k, JString m)], rest).
Proof.
  intros Hf Hk Hm.
  destruct fuel as [|[|[|f]]]; try lia.
  simpl.
  rewrite parse_quote_units by exact Hk; simpl.
  rewrite parse_quote_units by exact Hm; simpl.
  reflexivity.
Qed.

Lemma JSON_parse_single k m :
  units_ok k = true -> units_ok m = true ->
  JSON_parse (JSON_stringify [(k, Some m)]) = Some (JObject [(k, JString m)]).
Proof.
  intros Hk Hm; rewrite JSON_stringify_single_text; unfold JSON_parse.
  rewrite parse_value_single by (simpl; lia || assumption); reflexivity.
Qed.

(** ** Handler runs, case by case *)

(** A reply the SDK can hand back: its strings are strings of UTF-16 code
    units. *)
Definition reply_ok (r : Reply) : bool :=
  match r with
  | Fulfilled (Some a) =>
      match ar_AccessToken a with Some t => units_ok t | None => true end
  | Fulfilled None => true
  | Rejected (Some m) => units_ok m
  | Rejected None => true
  end.

(** Follows a run (or the calls) of a handler through every branch of its
    code; [ptac c] handles the reply to a call [c]. *)
Ltac walk provider ptac :=
  unfold JSON_parse_prog, require_object_coercible, calculateSecretHash,
    await_promise, error_message, or_default;
  repeat first
    [ progress cbn [run calls bind try_catch ar_AccessToken]
    | match goal with
      | |- context [provider ?c] => ptac c
      | |- context [match ?x with _ => _ end] => destruct x
      | |- context [if ?b then _ else _] => destruct b
      end ].

Ltac reply_ok_cases provider HQ c :=
  let Q := fresh "Q" in
  pose proof (HQ c) as Q;
  destruct (provider c) as [[[[?|]]|]|[?|]]; cbn [reply_ok ar_AccessToken] in Q.

Ltac units_ok_leaf := first [reflexivity | assumption].

Ltac message_leaf :=
  let E := fresh "E" in
  intro E; first [discriminate E | injection E as <-];
  eexists; apply JSON_parse_single; units_ok_leaf.

(** What a response body of index.ts reads back as: [{}], a [message] or an
    [accessToken]. *)
Definition index_ts_body (r : APIGatewayProxyResult) : Prop :=
  JSON_parse (result_body r) = Some (JObject []) \/
  (exists s, JSON_parse (result_body r) = Some (JObject [(js "message", JString s)])) \/
  (exists s, JSON_parse (result_body r) = Some (JObject [(js "accessToken", JString s)])).

Ltac index_ts_leaf :=
  let E := fresh "E" in
  intro E; first [discriminate E | injection E as <-];
  unfold index_ts_body;
  first [ left; reflexivity
        | right; left; eexists; apply JSON_parse_single; units_ok_leaf
        | right; right; eexists; apply JSON_parse_single; units_ok_leaf ].

Ltac any_reply provider c := destruct (provider c) as [?|?].

Ltac one_call_leaf :=
  first [ left; reflexivity | right; eexists; reflexivity ].

(** The same walk, keeping an equation for every case split. *)
Ltac walk_eqn provider ptac :=
  unfold JSON_parse_prog, require_object_coercible, calculateSecretHash,
    await_promise, error_message, or_default;
  repeat first
    [ progress cbn [run calls bind try_catch ar_AccessToken]
    | match goal with
      | |- context [provider ?c] => ptac c
      | |- context [match ?x with _ => _ end] => let E := fresh "E" in destruct x eqn:E
      | |- context [if ?b then _ else _] => let E := fresh "E" in destruct b eqn:E
      end ].

Ltac reply_eqn provider c :=
  let E := fresh "P" in destruct (provider c) as [?|?] eqn:E.

Ltac token_reply provider c :=
  let E := fresh "P" in destruct (provider c) as [[[[?|]]|]|?] eqn:E.

(** Every rejection carries a non-empty message. *)
Ltac rejection_has_message provider HR c :=
  let E := fresh "P" in
  let s := fresh "s" in
  let Hs := fresh "Hs" in
  let x := fresh "x" in
  destruct (provider c) as [?|?] eqn:E;
  [ | destruct (HR _ _ E) as (s & -> & Hs); destruct s as [|x s]; [congruence|] ].

(** The client id and secret hash of a call that needs one: the hash is
    [calculateSecretHash] of the call's user name. *)
Definition call_carries_secret_hash (Number_toString : Z -> Z -> jsstring)
  (cognitoClientId cognitoClientSecret : jsstring) (c : CognitoCall) : Prop :=
  match c with
  | getUser _ => False
  | initiateAuth p =>
      AuthFlow p = js "USER_PASSWORD_AUTH" /\ ia_ClientId p = cognitoClientId /\
      calculateSecretHash Number_toString cognitoClientId cognitoClientSecret (USERNAME p)
        = Ret (SECRET_HASH p)
  | signUp p =>
      su_ClientId p = cognitoClientId /\
      calculateSecretHash Number_toString cognitoClientId cognitoClientSecret (su_Username p)
        = Ret (su_SecretHash p)
  | confirmSignUp p =>
      cs_ClientId p = cognitoClientId /\
      calculateSecretHash Number_toString cognitoClientId cognitoClientSecret (cs_Username p)
        = Ret (cs_SecretHash p)
  end.

Ltac secret_hash_leaf :=
  let c := fresh "c" in
  let Hc := fresh "Hc" in
  intros c Hc; destruct Hc as [<-|[]];
  unfold call_carries_secret_hash, calculateSecretHash;
  cbn [USERNAME SECRET_HASH AuthFlow ia_ClientId su_Username su_SecretHash su_ClientId
       cs_Username cs_SecretHash cs_ClientId];
  repeat split; try reflexivity;
  match goal with H : js_ToString _ _ = Some _ |- _ => rewrite H; reflexivity end.

(** Leaves of a comparison of two runs: equal as terms once [respond] and
    [message_result] are unfolded, or the expected difference. *)
Ltac same_or_expected :=
  unfold Part000.respond, IndexTs.message_result;
  match goal with
  | |- ?a = ?b => constr_eq a b; reflexivity
  | |- ?a = ?b \/ _ => constr_eq a b; left; reflexivity
  | |- _ \/ ?a = ?b /\ ?c = ?d => constr_eq a b; constr_eq c d; right; split; reflexivity
  | |- _ \/ _ => right; eexists; split; reflexivity
  end.

(** [x ?? d] for [x : string | undefined]. *)
Definition nullish_default (x : option jsstring) (d : jsstring) : jsstring :=
  match x with
  | Some s => s
  | None => d
  end.

Lemma digest_bytes_length s : List.length (SHA256.digest_bytes s) = 32%nat.
Proof. destruct s; reflexivity. Qed.

Lemma base64_encode_32 (l : list Z) :
  List.length l = 32%nat ->
  List.length (base64_encode l) = 44%nat /\ nth 43 (base64_encode l) 0 = 61.
Proof.
  intro L.
  do 32 (destruct l as [|? l]; [discriminate L|]).
  destruct l; [split; reflexivity | discriminate L].
Qed.

(** Providers for the runs below: one grants every call with the token
    ["tok"], one rejects every call with the message ["denied"]. *)
Definition test_granting (c : CognitoCall) : Reply := Fulfilled (token_result "tok").
Definition test_rejecting (c : CognitoCall) : Reply := Rejected (Some (js "denied")).

Definition test_login : APIGatewayProxyEvent :=
  body_event "{'username':'alice','password':'pw'}".
Definition test_signup : APIGatewayProxyEvent :=
  body_event "{'email':'a@b.c','username':'alice','password':'pw'}".
Definition test_confirmation : APIGatewayProxyEvent :=
  body_event "{'username':'alice','code':'123'}".

(** ** Claims *)

(** C5: an [authorize] request whose headers have no [Authorization] entry
    (or no headers at all) is answered, in both versions, with exactly
    status 401 and body [{"message":"Missing Authorization header"}]; the
    handler returns this value directly ([Ret]), so no Cognito call is made. *)
Theorem C5_missing_authorization_header (event : APIGatewayProxyEvent) :
  header_Authorization event = None ->
  Part000.authorize event =
    Ret (mkResult 401 (JSON_stringify [(js "message", Some (js "Missing Authorization header"))])) /\
  IndexTs.authorize event =
    Ret (mkResult 401 (JSON_stringify [(js "message", Some (js "Missing Authorization header"))])).
Proof.
  intro H; unfold Part000.authorize, IndexTs.authorize; rewrite H; split; reflexivity.
Qed.

Lemma C5_missing_authorization_header_witness :
  header_Authorization (mkEvent (Some [(js "authorization", js "Bearer t")]) None) = None /\
  Part000.authorize (mkEvent (Some [(js "authorization", js "Bearer t")]) None) =
    Ret (mkResult 401 (JSON_stringify [(js "message", Some (js "Missing Authorization header"))])).
Proof.
  split; [reflexivity|].
  apply (C5_missing_authorization_header (mkEvent (Some [(js "authorization", js "Bearer t")]) None)).
  reflexivity.
Defined.

(** C8: whatever the request and however Cognito answers, a response that
    a handler returns has status 200 or 401 for [authorize], and 200 or 400
    for [authenticate], [register] and [confirm] (both versions, and the
    second [authenticate] of index.ts). *)
Theorem C8_status_codes (N : Z -> Z -> jsstring) (cid sec : jsstring)
  (provider : CognitoCall -> Reply) (event : APIGatewayProxyEvent) (r : APIGatewayProxyResult) :
  (run provider (Part000.authorize event) = Returned r -> statusCode r = 200 \/ statusCode r = 401) /\
  (run provider (IndexTs.authorize event) = Returned r -> statusCode r = 200 \/ statusCode r = 401) /\
  (run provider (Part000.authenticate N cid sec event) = Returned r -> statusCode r = 200 \/ statusCode r = 400) /\
  (run provider (Part000.register N cid sec event) = Returned r -> statusCode r = 200 \/ statusCode r = 400) /\
  (run provider (Part000.confirm N cid sec event) = Returned r -> statusCode r = 200 \/ statusCode r = 400) /\
  (run provider (IndexTs.authenticate N cid sec event) = Returned r -> statusCode r = 200 \/ statusCode r = 400) /\
  (run provider (IndexTs.register N cid sec event) = Returned r -> statusCode r = 200 \/ statusCode r = 400) /\
  (run provider (IndexTs.confirm N cid sec event) = Returned r -> statusCode r = 200 \/ statusCode r = 400) /\
  (run provider (IndexTsTail.authenticate N cid sec event) = Returned r -> statusCode r = 200 \/ statusCode r = 400).
Proof.
  destruct (authorize_statuses event) as (A1 & A2).
  destruct (body_handler_statuses N cid sec event) as (B1 & B2 & B3 & B4 & B5 & B6 & B7).
  repeat split; intro E;
    [ exact (returns_only_run _ _ _ _ A1 E) | exact (returns_only_run _ _ _ _ A2 E)
    | exact (returns_only_run _ _ _ _ B1 E) | exact (returns_only_run _ _ _ _ B2 E)
    | exact (returns_only_run _ _ _ _ B3 E) | exact (returns_only_run _ _ _ _ B4 E)
    | exact (returns_only_run _ _ _ _ B5 E) | exact (returns_only_run _ _ _ _ B6 E)
    | exact (returns_only_run _ _ _ _ B7 E) ].
Qed.

Lemma C8_status_codes_witness :
  run (fun _ => Rejected None)
      (Part000.confirm test_toString test_client_id test_client_secret
         (body_event "{'username':'alice','code':'123456'}"))
  = Returned (Part000.respond 400 (js "Confirmation failed")) /\
  (statusCode (Part000.respond 400 (js "Confirmation failed")) = 200 \/
   statusCode (Part000.respond 400 (js "Confirmation failed")) = 400).
Proof.
  assert (E : run (fun _ => Rejected None)
      (Part000.confirm test_toString test_client_id test_client_secret
         (body_event "{'username':'alice','code':'123456'}"))
      = Returned (Part000.respond 400 (js "Confirmation failed")))
    by (vm_compute; reflexivity).
  split; [exact E|].
  destruct (C8_status_codes test_toString test_client_id test_client_secret
             (fun _ => Rejected None) (body_event "{'username':'alice','code':'123456'}")
             (Part000.respond 400 (js "Confirmation failed")))
    as (_ & _ & _ & _ & H & _).
  exact (H E).
Defined.

(** C3: for a string [username], [calculateSecretHash] cannot throw, whatever
    the client id and secret (the empty secret included): it returns the
    standard, padded base64 text of HMAC-SHA-256 keyed with the UTF-8 bytes
    of [cognitoClientSecret] over the UTF-8 bytes of
    [username + cognitoClientId], a value determined by the three strings
    alone: 44 characters, the last one [=]. *)
Theorem C3_calculateSecretHash (N : Z -> Z -> jsstring) (cognitoClientId cognitoClientSecret username : jsstring) :
  exists hash,
    calculateSecretHash N cognitoClientId cognitoClientSecret (JString username) = Ret hash /\
    hash = base64_encode (hmac_sha256 (utf8_encode cognitoClientSecret)
                                      (utf8_encode (username ++ cognitoClientId))) /\
    List.length hash = 44%nat /\ nth 43 hash 0 = 61.
Proof.
  eexists; split; [reflexivity|]. split; [reflexivity|].
  unfold hmac_sha256, SHA256.hash. apply base64_of_digest_44.
Qed.

(** How a non-empty body [text] makes a body handler throw, [fields] being
    the fields the handler destructures (the first of them [username]). *)
Definition parse_fault (N : Z -> Z -> jsstring) (text : jsstring) (fields : list jsstring)
  (e : exn) : Prop :=
  (JSON_parse text = None /\ e = SyntaxError) \/
  (JSON_parse text = Some JNull /\ e = TypeError) \/
  (exists v, JSON_parse text = Some v /\ v <> JNull /\
     forallb (fun f => truthy (get_property v f)) fields = true /\
     js_ToString N (get_property v (js "username")) = None /\ e = TypeError).

Lemma roc_cases text v :
  JSON_parse text = Some v ->
  (v = JNull /\ require_object_coercible v = Throw TypeError) \/
  (v <> JNull /\ require_object_coercible v = Ret tt).
Proof.
  intro P; destruct v; try (right; split; [congruence | reflexivity]).
  - exfalso; exact (JSON_parse_not_undefined text P).
  - left; split; reflexivity.
Qed.

Lemma rhs_none (P : jsstring -> Prop) : (exists t, None = Some t /\ P t) -> False.
Proof. intros (t & H & _); discriminate. Qed.

Lemma rhs_some_nil (P : jsstring -> Prop) :
  (exists t, Some [] = Some t /\ t <> [] /\ P t) -> False.
Proof. intros (t & H & Hne & _); injection H as <-; contradiction. Qed.

Lemma rhs_some (text : jsstring) (P : jsstring -> Prop) :
  text <> [] -> ((exists t, Some text = Some t /\ t <> [] /\ P t) <-> P text).
Proof.
  intro Hne; split.
  - intros (t & H & _ & HP); injection H as <-; exact HP.
  - intro HP; exists text; auto.
Qed.

Lemma parse_fault_syntax N text fields e :
  JSON_parse text = None -> (parse_fault N text fields e <-> e = SyntaxError).
Proof.
  intro P; unfold parse_fault; rewrite P; split.
  - intros [[_ H]|[[H _]|(v & H & _)]]; [exact H | discriminate | discriminate].
  - intro H; left; auto.
Qed.

Lemma parse_fault_null N text fields e :
  JSON_parse text = Some JNull -> (parse_fault N text fields e <-> e = TypeError).
Proof.
  intro P; unfold parse_fault; rewrite P; split.
  - intros [[H _]|[[_ H]|(v & H & Hv & _)]]; [discriminate | exact H |].
    injection H as <-; contradiction.
  - intro H; right; left; auto.
Qed.

Lemma parse_fault_value N text fields e v :
  JSON_parse text = Some v -> v <> JNull ->
  (parse_fault N text fields e <->
   forallb (fun f => truthy (get_property v f)) fields = true /\
   js_ToString N (get_property v (js "username")) = None /\ e = TypeError).
Proof.
  intros P Hv; unfold parse_fault; rewrite P; split.
  - intros [[H _]|[[H _]|(v' & H & _ & H1 & H2 & H3)]]; try discriminate.
    + injection H as ->; contradiction.
    + injection H as <-; auto.
  - intro H; right; right; exists v; auto.
Qed.

(** No [Faulted] outcome is reachable through a [try] whose handler returns. *)
Lemma run_try_catch_ret {A} provider (p : Prog A) (h : exn -> Prog A) e :
  (forall e', exists r, h e' = Ret r) -> run provider (try_catch p h) <> Faulted e.
Proof.
  intros Hh; rewrite run_try_catch.
  destruct (run provider p); [discriminate|].
  destruct (Hh e0) as (r & ->); discriminate.
Qed.

(** The case analysis shared by the body handlers for C1. *)
Ltac body_fault_cases :=
  let B := fresh "B" in let E := fresh "E" in let P := fresh "P" in
  let text := fresh "text" in let v := fresh "v" in
  destruct (body _) as [text|] eqn:B;
  [ | split; [simpl; discriminate
             | let X := fresh "X" in intro X; exfalso; exact (rhs_none _ X)] ];
  destruct (jsstring_eqb text []) eqn:E;
  [ apply jsstring_eqb_nil in E; subst text;
    split; [simpl; discriminate
           | let X := fresh "X" in intro X; exfalso; exact (rhs_some_nil _ X)] | ];
  assert (text <> []) by (intro; subst text; discriminate);
  rewrite (rhs_some text) by assumption;
  unfold JSON_parse_prog;
  destruct (JSON_parse text) as [v|] eqn:P;
  [ | rewrite parse_fault_syntax by exact P; simpl; split; congruence ];
  destruct (roc_cases text v P) as [[-> R]|[Hv R]];
  [ rewrite parse_fault_null by exact P; simpl; split; congruence | ];
  rewrite (parse_fault_value _ _ _ _ v P Hv); simpl bind; rewrite R;
  unfold calculateSecretHash; simpl;
  repeat match goal with
         | |- context [truthy (get_property v ?f)] =>
             let T := fresh "T" in destruct (truthy (get_property v f)) eqn:T
         end; simpl;
  try (split; [discriminate | let H := fresh "H" in intros (H & _); discriminate]);
  match goal with
  | |- context [js_ToString ?n ?u] =>
      let S := fresh "S" in destruct (js_ToString n u) eqn:S
  end; simpl;
  first
    [ solve [ split; [ let H := fresh "H" in
                       intro H; exfalso; revert H;
                       apply run_try_catch_ret; intro; eexists; reflexivity
                     | let H := fresh "H" in intros (_ & H & _); discriminate ] ]
    | solve [ split; [ let H := fresh "H" in intro H; injection H as <-; auto
                     | intros (_ & _ & ->); reflexivity ] ] ].

(** C1 (amended): [authorize] always ends in a response.  [authenticate],
    [register] and [confirm] end in a response for every request and every
    Cognito answer, except that they throw (an unhandled fault, in both
    versions) exactly when the body is a non-empty text and either it is
    not valid JSON (SyntaxError), or it parses to [null] (TypeError), or
    every required field is truthy and [username] cannot be converted to a
    string (TypeError: an object with an own [toString] property, or an
    array holding one). *)
Theorem C1_faults_only_on_parse (N : Z -> Z -> jsstring) (cid sec : jsstring)
  (provider : CognitoCall -> Reply) (event : APIGatewayProxyEvent) (e : exn) :
  (exists r, run provider (Part000.authorize event) = Returned r) /\
  (exists r, run provider (IndexTs.authorize event) = Returned r) /\
  (run provider (Part000.authenticate N cid sec event) = Faulted e <->
   exists text, body event = Some text /\ text <> [] /\
     parse_fault N text [js "username"; js "password"] e) /\
  (run provider (Part000.register N cid sec event) = Faulted e <->
   exists text, body event = Some text /\ text <> [] /\
     parse_fault N text [js "email"; js "username"; js "password"] e) /\
  (run provider (Part000.confirm N cid sec event) = Faulted e <->
   exists text, body event = Some text /\ text <> [] /\
     parse_fault N text [js "username"; js "code"] e) /\
  (run provider (IndexTs.authenticate N cid sec event) = Faulted e <->
   exists text, body event = Some text /\ text <> [] /\
     parse_fault N text [js "username"; js "password"] e) /\
  (run provider (IndexTs.register N cid sec event) = Faulted e <->
   exists text, body event = Some text /\ text <> [] /\
     parse_fault N text [js "email"; js "username"; js "password"] e) /\
  (run provider (IndexTs.confirm N cid sec event) = Faulted e <->
   exists text, body event = Some text /\ text <> [] /\
     parse_fault N text [js "username"; js "code"] e).
Proof.
  split; [|split].
  - unfold Part000.authorize.
    destruct (header_Authorization event) as [a|]; [|eexists; reflexivity].
    destruct (jsstring_eqb a []); [eexists; reflexivity|].
    simpl; destruct (provider _); eexists; reflexivity.
  - unfold IndexTs.authorize.
    destruct (header_Authorization event) as [a|]; [|eexists; reflexivity].
    destruct (jsstring_eqb a []); [eexists; reflexivity|].
    simpl; destruct (provider _); eexists; reflexivity.
  - repeat match goal with |- _ /\ _ => split end;
      [ unfold Part000.authenticate | unfold Part000.register | unfold Part000.confirm
      | unfold IndexTs.authenticate | unfold IndexTs.register | unfold IndexTs.confirm ];
      body_fault_cases.
Qed.

Lemma C1_faults_only_on_parse_witness :
  run (fun _ => Fulfilled None)
      (Part000.register test_toString test_client_id test_client_secret (body_event "[1,"))
  = Faulted SyntaxError /\
  (exists text, body (body_event "[1,") = Some text /\ text <> [] /\
     parse_fault test_toString text [js "email"; js "username"; js "password"] SyntaxError).
Proof.
  assert (E : run (fun _ => Fulfilled None)
      (Part000.register test_toString test_client_id test_client_secret (body_event "[1,"))
      = Faulted SyntaxError) by (vm_compute; reflexivity).
  split; [exact E|].
  destruct (C1_faults_only_on_parse test_toString test_client_id test_client_secret
              (fun _ => Fulfilled None) (body_event "[1,") SyntaxError)
    as (_ & _ & _ & H & _).
  exact (proj1 H E).
Defined.

(** C1 fails as stated: a body that is not JSON, the JSON text [null], or
    a [username] object with a [toString] key makes the handlers throw
    instead of answering with a client error; the second [authenticate] of
    index.ts also throws on an absent body and on a rejected call. *)
Lemma C1_malformed_body_throws :
  run (fun _ => Fulfilled None)
      (Part000.authenticate test_toString test_client_id test_client_secret (body_event "{"))
  = Faulted SyntaxError /\
  run (fun _ => Fulfilled None)
      (IndexTs.authenticate test_toString test_client_id test_client_secret (body_event "{"))
  = Faulted SyntaxError /\
  run (fun _ => Fulfilled None)
      (Part000.confirm test_toString test_client_id test_client_secret (body_event "null"))
  = Faulted TypeError /\
  run (fun _ => Fulfilled None)
      (Part000.authenticate test_toString test_client_id test_client_secret
         (body_event "{'username':{'toString':1},'password':'p'}"))
  = Faulted TypeError /\
  run (fun _ => Fulfilled None)
      (IndexTsTail.authenticate test_toString test_client_id test_client_secret
         (mkEvent None None))
  = Faulted TypeError /\
  run (fun _ => Rejected (Some (js "x")))
      (IndexTsTail.authenticate test_toString test_client_id test_client_secret
         (body_event "{'username':'a','password':'p'}"))
  = Faulted (CognitoError (Some (js "x"))).
Proof. vm_compute. repeat split. Qed.

(** Rewrites a body handler down to its field check, for a body parsing
    to a value other than [null]. *)
Ltac reach_field_check B P R :=
  rewrite B;
  match goal with
  | |- context [jsstring_eqb ?t []] =>
      let HT := fresh "HT" in
      assert (HT : jsstring_eqb t [] = false)
        by (destruct t; [rewrite JSON_parse_nil in P; discriminate | reflexivity]);
      rewrite HT
  end;
  unfold JSON_parse_prog; rewrite P; simpl bind; rewrite R; simpl bind; cbv zeta.

Ltac field_check_fails F :=
  simpl in F; rewrite F; simpl; rewrite ?orb_true_r; reflexivity.

(** C6 (amended): for [authenticate], [register] and [confirm] (both
    versions), an absent or empty body is answered 400 "Missing body"; a body
    that parses to a value other than [null] in which a required field is
    absent, empty or otherwise falsy is answered 400 with the message naming
    the fields ("Missing username or password", "Missing email, username,
    or password" (index.ts: "Missing email, username or password"),
    "Missing username or code").  Each of these answers is returned directly
    ([Ret]): no Cognito call is made. *)
Theorem C6_validation_failures (N : Z -> Z -> jsstring) (cid sec : jsstring)
  (event : APIGatewayProxyEvent) :
  (opt_string_missing (body event) = true ->
     Part000.authenticate N cid sec event = Ret (Part000.respond 400 (js "Missing body")) /\
     Part000.register N cid sec event = Ret (Part000.respond 400 (js "Missing body")) /\
     Part000.confirm N cid sec event = Ret (Part000.respond 400 (js "Missing body")) /\
     IndexTs.authenticate N cid sec event = Ret (Part000.respond 400 (js "Missing body")) /\
     IndexTs.register N cid sec event = Ret (Part000.respond 400 (js "Missing body")) /\
     IndexTs.confirm N cid sec event = Ret (Part000.respond 400 (js "Missing body"))) /\
  (forall text v,
     body event = Some text -> JSON_parse text = Some v -> v <> JNull ->
     ((truthy (get_property v (js "username")) = false \/
       truthy (get_property v (js "password")) = false) ->
        Part000.authenticate N cid sec event =
          Ret (Part000.respond 400 (js "Missing username or password")) /\
        IndexTs.authenticate N cid sec event =
          Ret (Part000.respond 400 (js "Missing username or password"))) /\
     ((truthy (get_property v (js "email")) = false \/
       truthy (get_property v (js "username")) = false \/
       truthy (get_property v (js "password")) = false) ->
        Part000.register N cid sec event =
          Ret (Part000.respond 400 (js "Missing email, username, or password")) /\
        IndexTs.register N cid sec event =
          Ret (Part000.respond 400 (js "Missing email, username or password"))) /\
     ((truthy (get_property v (js "username")) = false \/
       truthy (get_property v (js "code")) = false) ->
        Part000.confirm N cid sec event =
          Ret (Part000.respond 400 (js "Missing username or code")) /\
        IndexTs.confirm N cid sec event =
          Ret (Part000.respond 400 (js "Missing username or code")))).
Proof.
  split.
  - intro H.
    unfold Part000.authenticate, Part000.register, Part000.confirm,
      IndexTs.authenticate, IndexTs.register, IndexTs.confirm.
    unfold opt_string_missing in H.
    destruct (body event) as [t|]; [apply jsstring_eqb_nil in H; subst t|];
      repeat split; reflexivity.
  - intros text v B P Hv.
    destruct (roc_cases text v P) as [[Hn _]|[_ R]]; [contradiction|].
    split; [|split].
    + intros [F|F]; split;
        [ unfold Part000.authenticate | unfold IndexTs.authenticate
        | unfold Part000.authenticate | unfold IndexTs.authenticate ];
        reach_field_check B P R; field_check_fails F.
    + intros [F|[F|F]]; split;
        [ unfold Part000.register | unfold IndexTs.register
        | unfold Part000.register | unfold IndexTs.register
        | unfold Part000.register | unfold IndexTs.register ];
        reach_field_check B P R; field_check_fails F.
    + intros [F|F]; split;
        [ unfold Part000.confirm | unfold IndexTs.confirm
        | unfold Part000.confirm | unfold IndexTs.confirm ];
        reach_field_check B P R; field_check_fails F.
Qed.

(** ** [String.prototype.replace] with a string pattern *)

Lemma starts_with_app (p s r : jsstring) : starts_with p s = Some r <-> s = p ++ r.
Proof.
  revert s; induction p as [|x p IH]; intro s; simpl.
  - split; [intro H; injection H; auto | intros ->; reflexivity].
  - destruct s as [|y s]; [split; discriminate|].
    destruct (Z.eqb_spec x y) as [<-|Hne].
    + rewrite IH; split; [intros ->; reflexivity | intro H; injection H; auto].
    + split; [discriminate | intro H; injection H; intros; congruence].
Qed.

Lemma skipn_length_app (x l : jsstring) : skipn (List.length x) (x ++ l) = l.
Proof. induction x as [|c x IH]; simpl; auto. Qed.

Lemma firstn_length_app (x l : jsstring) : firstn (List.length x) (x ++ l) = x.
Proof. induction x as [|c x IH]; simpl; [reflexivity | rewrite IH; reflexivity]. Qed.

Lemma index_of_some (s p : jsstring) (i : nat) :
  index_of s p = Some i ->
  (exists r, skipn i s = p ++ r) /\
  forall j, (j < i)%nat -> starts_with p (skipn j s) = None.
Proof.
  revert i; induction s as [|c s IH]; intro i; simpl.
  - destruct (starts_with p []) as [r|] eqn:E; [|discriminate].
    intro H; injection H as <-; split; [exists r; apply starts_with_app; exact E | lia].
  - destruct (starts_with p (c :: s)) as [r|] eqn:E.
    + intro H; injection H as <-; split; [exists r; apply starts_with_app; exact E | lia].
    + destruct (index_of s p) as [i'|] eqn:I; [|discriminate].
      intro H; injection H as <-.
      destruct (IH i' eq_refl) as [[r Hr] Hmin]; split; [exists r; exact Hr|].
      intros [|j] Hj; [exact E | apply Hmin; lia].
Qed.

Lemma index_of_none (s p : jsstring) :
  index_of s p = None -> forall j, starts_with p (skipn j s) = None.
Proof.
  induction s as [|c s IH]; simpl.
  - destruct (starts_with p []) eqn:E; [discriminate|]. intros _ [|j]; exact E.
  - destruct (starts_with p (c :: s)) eqn:E; [discriminate|].
    destruct (index_of s p) eqn:I; [discriminate|].
    intros _ [|j]; [exact E | apply IH; reflexivity].
Qed.

Lemma occurrence_starts (a p x y : jsstring) :
  a = x ++ p ++ y -> starts_with p (skipn (List.length x) a) = Some y.
Proof. intros ->; rewrite skipn_length_app; apply starts_with_app; reflexivity. Qed.

(** [a.replace(p, '')] removes the first occurrence of [p]. *)
Lemma string_replace_first (a p x y : jsstring) :
  a = x ++ p ++ y ->
  (forall x' y', a = x' ++ p ++ y' -> (List.length x <= List.length x')%nat) ->
  string_replace a p [] = x ++ y.
Proof.
  intros Hxy Hmin; unfold string_replace.
  destruct (index_of a p) as [i|] eqn:I.
  - destruct (index_of_some a p i I) as [[r Hr] Hbefore].
    assert (Hix : (i <= List.length x)%nat).
    { destruct (Nat.le_gt_cases i (List.length x)) as [|Hlt]; [assumption|].
      pose proof (Hbefore _ Hlt) as S.
      rewrite (occurrence_starts a p x y Hxy) in S; discriminate. }
    assert (Ha : a = firstn i a ++ p ++ r) by (rewrite <- Hr; symmetry; apply firstn_skipn).
    specialize (Hmin _ _ Ha).
    rewrite length_firstn in Hmin.
    assert (Hx : List.length x = i) by lia.
    assert (Efx : firstn i a = x) by (rewrite <- Hx, Hxy; apply firstn_length_app).
    assert (Ery : r = y).
    { pose proof (occurrence_starts a p x y Hxy) as S1.
      rewrite Hx, Hr in S1. apply starts_with_app in S1. apply app_inv_head in S1.
      exact S1. }
    rewrite Efx; simpl.
    rewrite Nat.add_comm, <- skipn_skipn, Hr, skipn_length_app, Ery. reflexivity.
  - pose proof (index_of_none a p I (List.length x)) as S.
    rewrite (occurrence_starts a p x y Hxy) in S; discriminate.
Qed.

Lemma string_replace_absent (a p : jsstring) :
  (forall x y, a <> x ++ p ++ y) -> string_replace a p [] = a.
Proof.
  intro Habs; unfold string_replace.
  destruct (index_of a p) as [i|] eqn:I; [|reflexivity].
  destruct (index_of_some a p i I) as [[r Hr] _].
  exfalso; apply (Habs (firstn i a) r).
  rewrite <- Hr; symmetry; apply firstn_skipn.
Qed.

(** ** The handlers past their field check *)

Lemma calculateSecretHash_cases N cid sec u :
  (exists hash, calculateSecretHash N cid sec u = Ret hash) \/
  calculateSecretHash N cid sec u = Throw TypeError.
Proof.
  unfold calculateSecretHash; destruct (js_ToString N u); [left; eexists|right]; reflexivity.
Qed.

Lemma get_property_null k : get_property JNull k = JUndefined.
Proof. reflexivity. Qed.

(** Unfolds a body handler past its field check, once every field read is
    known truthy; [Hc] settles [calculateSecretHash]. *)
Ltac past_field_check B P R Hc :=
  reach_field_check B P R;
  repeat match goal with
         | T : truthy _ = true |- _ => simpl in T; rewrite T; clear T
         end;
  simpl;
  first [rewrite Hc | simpl in Hc; rewrite Hc]; simpl.

Ltac continuation_cases :=
  eexists; split;
  [ reflexivity
  | let r := fresh "r" in
    intro r; destruct r as [res|m]; simpl;
    [ try (destruct res as [[[t|]]|]; simpl; try destruct (jsstring_eqb t [])) | ];
    reflexivity ].

Section PastFieldCheck.
Variable N : Z -> Z -> jsstring.
Variables cid sec : jsstring.
Variable event : APIGatewayProxyEvent.
Variable text : jsstring.
Variable v : jsval.
Hypothesis B : body event = Some text.
Hypothesis P : JSON_parse text = Some v.
Hypothesis Hv : v <> JNull.

Local Abbreviation username := (get_property v (js "username")).
Local Abbreviation password := (get_property v (js "password")).
Local Abbreviation email := (get_property v (js "email")).
Local Abbreviation code := (get_property v (js "code")).

Let R : require_object_coercible v = Ret tt.
Proof. destruct (roc_cases text v P) as [[? _]|[_ R]]; [contradiction | exact R]. Qed.

(** What [authenticate] answers once [initiateAuth] has settled as [r]. *)
Definition Part000_authenticate_answer (r : Reply) : APIGatewayProxyResult :=
  match r with
  | Fulfilled res =>
      match match res with Some a => ar_AccessToken a | None => None end with
      | Some token =>
          if jsstring_eqb token [] then Part000.respond 400 (js "Invalid username or password")
          else Part000.respond 200 token
      | None => Part000.respond 400 (js "Invalid username or password")
      end
  | Rejected m => Part000.respond 400 (or_default m (js "Authentication failed"))
  end.

Definition IndexTs_authenticate_answer (r : Reply) : APIGatewayProxyResult :=
  match r with
  | Fulfilled res =>
      match match res with Some a => ar_AccessToken a | None => None end with
      | Some token =>
          if jsstring_eqb token [] then
            IndexTs.message_result 400 (Some (js "Invalid username or password"))
          else mkResult 200 (JSON_stringify [(js "accessToken", Some token)])
      | None => IndexTs.message_result 400 (Some (js "Invalid username or password"))
      end
  | Rejected m => IndexTs.message_result 400 m
  end.

Definition initiateAuth_params (hash : jsstring) : InitiateAuthRequest :=
  {| AuthFlow := js "USER_PASSWORD_AUTH"; ia_ClientId := cid;
     USERNAME := username; PASSWORD := password; SECRET_HASH := hash |}.

Definition signUp_params (hash : jsstring) : SignUpRequest :=
  {| su_ClientId := cid; su_Password := password; su_Username := username;
     UserAttributes := [(js "email", email)]; su_SecretHash := hash |}.

Definition confirmSignUp_params (hash : jsstring) : ConfirmSignUpRequest :=
  {| cs_ClientId := cid; ConfirmationCode := code; cs_Username := username;
     cs_SecretHash := hash |}.

Lemma Part000_authenticate_call hash :
  truthy username = true -> truthy password = true ->
  calculateSecretHash N cid sec username = Ret hash ->
  exists k, Part000.authenticate N cid sec event =
              Await (initiateAuth (initiateAuth_params hash)) k /\
            forall r, k r = Ret (Part000_authenticate_answer r).
Proof.
  intros T1 T2 Hc; unfold Part000.authenticate.
  past_field_check B P R Hc; continuation_cases.
Qed.

Lemma IndexTs_authenticate_call hash :
  truthy username = true -> truthy password = true ->
  calculateSecretHash N cid sec username = Ret hash ->
  exists k, IndexTs.authenticate N cid sec event =
              Await (initiateAuth (initiateAuth_params hash)) k /\
            forall r, k r = Ret (IndexTs_authenticate_answer r).
Proof.
  intros T1 T2 Hc; unfold IndexTs.authenticate.
  past_field_check B P R Hc; continuation_cases.
Qed.
Definition Part000_register_answer (r : Reply) : APIGatewayProxyResult :=
  match r with
  | Fulfilled _ => Part000.respond 200 (js "User created")
  | Rejected m => Part000.respond 400 (or_default m (js "User registration failed"))
  end.

Definition IndexTs_register_answer (r : Reply) : APIGatewayProxyResult :=
  match r with
  | Fulfilled _ => IndexTs.message_result 200 (Some (js "User created"))
  | Rejected m => IndexTs.message_result 400 m
  end.

Definition Part000_confirm_answer (r : Reply) : APIGatewayProxyResult :=
  match r with
  | Fulfilled _ => Part000.respond 200 (js "User confirmed")
  | Rejected m => Part000.respond 400 (or_default m (js "Confirmation failed"))
  end.

Definition IndexTs_confirm_answer (r : Reply) : APIGatewayProxyResult :=
  match r with
  | Fulfilled _ => IndexTs.message_result 200 (Some (js "User confirmed"))
  | Rejected m => IndexTs.message_result 400 m
  end.

Lemma Part000_register_call hash :
  truthy email = true -> truthy username = true -> truthy password = true ->
  calculateSecretHash N cid sec username = Ret hash ->
  exists k, Part000.register N cid sec event = Await (signUp (signUp_params hash)) k /\
            forall r, k r = Ret (Part000_register_answer r).
Proof.
  intros T1 T2 T3 Hc; unfold Part000.register.
  past_field_check B P R Hc; continuation_cases.
Qed.

Lemma IndexTs_register_call hash :
  truthy email = true -> truthy username = true -> truthy password = true ->
  calculateSecretHash N cid sec username = Ret hash ->
  exists k, IndexTs.register N cid sec event = Await (signUp (signUp_params hash)) k /\
            forall r, k r = Ret (IndexTs_register_answer r).
Proof.
  intros T1 T2 T3 Hc; unfold IndexTs.register.
  past_field_check B P R Hc; continuation_cases.
Qed.

Lemma Part000_confirm_call hash :
  truthy username = true -> truthy code = true ->
  calculateSecretHash N cid sec username = Ret hash ->
  exists k, Part000.confirm N cid sec event =
              Await (confirmSignUp (confirmSignUp_params hash)) k /\
            forall r, k r = Ret (Part000_confirm_answer r).
Proof.
  intros T1 T2 Hc; unfold Part000.confirm.
  past_field_check B P R Hc; continuation_cases.
Qed.

Lemma IndexTs_confirm_call hash :
  truthy username = true -> truthy code = true ->
  calculateSecretHash N cid sec username = Ret hash ->
  exists k, IndexTs.confirm N cid sec event =
              Await (confirmSignUp (confirmSignUp_params hash)) k /\
            forall r, k r = Ret (IndexTs_confirm_answer r).
Proof.
  intros T1 T2 Hc; unfold IndexTs.confirm.
  past_field_check B P R Hc; continuation_cases.
Qed.

Lemma IndexTsTail_authenticate_call hash :
  truthy username = true -> truthy password = true ->
  calculateSecretHash N cid sec username = Ret hash ->
  exists k, IndexTsTail.authenticate N cid sec event =
              Await (initiateAuth (initiateAuth_params hash)) k /\
            forall r, k r = match r with
                            | Fulfilled _ => Ret (IndexTs_authenticate_answer r)
                            | Rejected m => Throw (CognitoError m)
                            end.
Proof.
  intros T1 T2 Hc; unfold IndexTsTail.authenticate; cbv zeta.
  rewrite B; unfold JSON_parse_prog; rewrite P; simpl bind; rewrite R; simpl bind.
  repeat match goal with
         | T : truthy _ = true |- _ => simpl in T; rewrite T; clear T
         end;
  simpl; first [rewrite Hc | simpl in Hc; rewrite Hc]; simpl.
  continuation_cases.
Qed.

Ltac hash_throws Hc :=
  repeat match goal with
         | T : truthy _ = true |- _ => simpl in T; rewrite T; clear T
         end;
  simpl; first [rewrite Hc | simpl in Hc; rewrite Hc]; reflexivity.

Lemma handlers_hash_throw :
  calculateSecretHash N cid sec username = Throw TypeError ->
  (truthy username = true -> truthy password = true ->
     Part000.authenticate N cid sec event = Throw TypeError /\
     IndexTs.authenticate N cid sec event = Throw TypeError) /\
  (truthy email = true -> truthy username = true -> truthy password = true ->
     Part000.register N cid sec event = Throw TypeError /\
     IndexTs.register N cid sec event = Throw TypeError) /\
  (truthy username = true -> truthy code = true ->
     Part000.confirm N cid sec event = Throw TypeError /\
     IndexTs.confirm N cid sec event = Throw TypeError).
Proof.
  intro Hc; split; [|split]; intros; split;
    [ unfold Part000.authenticate | unfold IndexTs.authenticate
    | unfold Part000.register | unfold IndexTs.register
    | unfold Part000.confirm | unfold IndexTs.confirm ];
    reach_field_check B P R; hash_throws Hc.
Qed.

Lemma handlers_field_missing :
  ((truthy username = false \/ truthy password = false) ->
     Part000.authenticate N cid sec event =
       Ret (Part000.respond 400 (js "Missing username or password")) /\
     IndexTs.authenticate N cid sec event =
       Ret (IndexTs.message_result 400 (Some (js "Missing username or password")))) /\
  ((truthy email = false \/ truthy username = false \/ truthy password = false) ->
     Part000.register N cid sec event =
       Ret (Part000.respond 400 (js "Missing email, username, or password")) /\
     IndexTs.register N cid sec event =
       Ret (IndexTs.message_result 400 (Some (js "Missing email, username or password")))) /\
  ((truthy username = false \/ truthy code = false) ->
     Part000.confirm N cid sec event =
       Ret (Part000.respond 400 (js "Missing username or code")) /\
     IndexTs.confirm N cid sec event =
       Ret (IndexTs.message_result 400 (Some (js "Missing username or code")))).
Proof.
  split; [|split].
  - intros [F|F]; split;
      [ unfold Part000.authenticate | unfold IndexTs.authenticate
      | unfold Part000.authenticate | unfold IndexTs.authenticate ];
      reach_field_check B P R; field_check_fails F.
  - intros [F|[F|F]]; split;
      [ unfold Part000.register | unfold IndexTs.register
      | unfold Part000.register | unfold IndexTs.register
      | unfold Part000.register | unfold IndexTs.register ];
      reach_field_check B P R; field_check_fails F.
  - intros [F|F]; split;
      [ unfold Part000.confirm | unfold IndexTs.confirm
      | unfold Part000.confirm | unfold IndexTs.confirm ];
      reach_field_check B P R; field_check_fails F.
Qed.
End PastFieldCheck.

Lemma calculateSecretHash_throws_iff N cid sec u :
  calculateSecretHash N cid sec u = Throw TypeError <-> js_ToString N u = None.
Proof.
  unfold calculateSecretHash; destruct (js_ToString N u); split; congruence.
Qed.

(** Splits on the truthiness of the fields a disjunction of falsy fields
    mentions; what is left is the goal where all are truthy. *)
Ltac all_fields_truthy :=
  repeat match goal with
         | |- context [truthy ?x = false] =>
             let T := fresh "T" in
             destruct (truthy x) eqn:T;
             [ | repeat first [reflexivity | left; reflexivity | right] ]
         end;
  exfalso.

Ltac use_premises C :=
  repeat (specialize (C ltac:(assumption))).

Ltac passes_check_contradiction N cid sec event text v B P Hv Heq call :=
  let hash := fresh "hash" in let Hc := fresh "Hc" in
  destruct (calculateSecretHash_cases N cid sec (get_property v (js "username")))
    as [[hash Hc]|Hc];
  [ let C := fresh "C" in let k := fresh "k" in let E := fresh "E" in
    pose proof (call N cid sec event text v B P Hv hash) as C; use_premises C;
    destruct C as (k & E & _); rewrite E in Heq; discriminate
  | let Ha := fresh "Ha" in let Hr := fresh "Hr" in let Hf := fresh "Hf" in
    destruct (handlers_hash_throw N cid sec event text v B P Hv Hc) as (Ha & Hr & Hf);
    use_premises Ha; use_premises Hr; use_premises Hf;
    match goal with
    | H : _ /\ _ |- _ =>
        let E1 := fresh "E1" in let E2 := fresh "E2" in
        destruct H as [E1 E2];
        first [rewrite E1 in Heq | rewrite E2 in Heq]; discriminate
    end ].

Ltac sends_call N cid sec event text v B P Hv call :=
  let C := fresh "C" in let k := fresh "k" in let E := fresh "E" in
  pose proof (call N cid sec event text v B P Hv) as C;
  match goal with Hc : calculateSecretHash _ _ _ _ = Ret ?h |- _ => specialize (C h) end;
  use_premises C; destruct C as (k & E & _); exists k; exact E.

(** C10 (amended): for a body that parses to a value other than [null]
    (for [null] every body handler throws a TypeError, see C1), each of
    [authenticate], [register] and [confirm], in both versions, answers with
    its 400 missing-field response exactly when one of its required fields
    is falsy.  When all of them are truthy, whatever their types, the
    handler goes on to [calculateSecretHash username]: if that succeeds the
    values read from the body are sent to Cognito as they are, no type
    check made; it fails, with a TypeError that the handler does not catch,
    exactly when [username] cannot be converted to a string (an object with
    an own [toString] key, or an array holding one). *)
Theorem C10_truthiness_validation (N : Z -> Z -> jsstring) (cid sec : jsstring)
  (event : APIGatewayProxyEvent) (text : jsstring) (v : jsval) :
  body event = Some text -> JSON_parse text = Some v -> v <> JNull ->
  (Part000.authenticate N cid sec event =
     Ret (Part000.respond 400 (js "Missing username or password")) <->
   truthy (get_property v (js "username")) = false \/
   truthy (get_property v (js "password")) = false) /\
  (IndexTs.authenticate N cid sec event =
     Ret (IndexTs.message_result 400 (Some (js "Missing username or password"))) <->
   truthy (get_property v (js "username")) = false \/
   truthy (get_property v (js "password")) = false) /\
  (Part000.register N cid sec event =
     Ret (Part000.respond 400 (js "Missing email, username, or password")) <->
   truthy (get_property v (js "email")) = false \/
   truthy (get_property v (js "username")) = false \/
   truthy (get_property v (js "password")) = false) /\
  (IndexTs.register N cid sec event =
     Ret (IndexTs.message_result 400 (Some (js "Missing email, username or password"))) <->
   truthy (get_property v (js "email")) = false \/
   truthy (get_property v (js "username")) = false \/
   truthy (get_property v (js "password")) = false) /\
  (Part000.confirm N cid sec event =
     Ret (Part000.respond 400 (js "Missing username or code")) <->
   truthy (get_property v (js "username")) = false \/
   truthy (get_property v (js "code")) = false) /\
  (IndexTs.confirm N cid sec event =
     Ret (IndexTs.message_result 400 (Some (js "Missing username or code"))) <->
   truthy (get_property v (js "username")) = false \/
   truthy (get_property v (js "code")) = false) /\
  (forall hash,
     calculateSecretHash N cid sec (get_property v (js "username")) = Ret hash ->
     (truthy (get_property v (js "username")) = true ->
      truthy (get_property v (js "password")) = true ->
        (exists k, Part000.authenticate N cid sec event =
                     Await (initiateAuth (initiateAuth_params cid v hash)) k) /\
        (exists k, IndexTs.authenticate N cid sec event =
                     Await (initiateAuth (initiateAuth_params cid v hash)) k)) /\
     (truthy (get_property v (js "email")) = true ->
      truthy (get_property v (js "username")) = true ->
      truthy (get_property v (js "password")) = true ->
        (exists k, Part000.register N cid sec event =
                     Await (signUp (signUp_params cid v hash)) k) /\
        (exists k, IndexTs.register N cid sec event =
                     Await (signUp (signUp_params cid v hash)) k)) /\
     (truthy (get_property v (js "username")) = true ->
      truthy (get_property v (js "code")) = true ->
        (exists k, Part000.confirm N cid sec event =
                     Await (confirmSignUp (confirmSignUp_params cid v hash)) k) /\
        (exists k, IndexTs.confirm N cid sec event =
                     Await (confirmSignUp (confirmSignUp_params cid v hash)) k))) /\
  (js_ToString N (get_property v (js "username")) = None ->
     (truthy (get_property v (js "username")) = true ->
      truthy (get_property v (js "password")) = true ->
        Part000.authenticate N cid sec event = Throw TypeError /\
        IndexTs.authenticate N cid sec event = Throw TypeError) /\
     (truthy (get_property v (js "email")) = true ->
      truthy (get_property v (js "username")) = true ->
      truthy (get_property v (js "password")) = true ->
        Part000.register N cid sec event = Throw TypeError /\
        IndexTs.register N cid sec event = Throw TypeError) /\
     (truthy (get_property v (js "username")) = true ->
      truthy (get_property v (js "code")) = true ->
        Part000.confirm N cid sec event = Throw TypeError /\
        IndexTs.confirm N cid sec event = Throw TypeError)) /\
  (calculateSecretHash N cid sec (get_property v (js "username")) = Throw TypeError <->
   js_ToString N (get_property v (js "username")) = None).
Proof.
  intros B P Hv.
  destruct (handlers_field_missing N cid sec event text v B P Hv) as (M1 & M2 & M3).
  split; [|split; [|split; [|split; [|split; [|split; [|split; [|split]]]]]]].
  - split; [intro Heq | intro D; exact (proj1 (M1 D))].
    all_fields_truthy; passes_check_contradiction N cid sec event text v B P Hv Heq Part000_authenticate_call.
  - split; [intro Heq | intro D; exact (proj2 (M1 D))].
    all_fields_truthy; passes_check_contradiction N cid sec event text v B P Hv Heq IndexTs_authenticate_call.
  - split; [intro Heq | intro D; exact (proj1 (M2 D))].
    all_fields_truthy; passes_check_contradiction N cid sec event text v B P Hv Heq Part000_register_call.
  - split; [intro Heq | intro D; exact (proj2 (M2 D))].
    all_fields_truthy; passes_check_contradiction N cid sec event text v B P Hv Heq IndexTs_register_call.
  - split; [intro Heq | intro D; exact (proj1 (M3 D))].
    all_fields_truthy; passes_check_contradiction N cid sec event text v B P Hv Heq Part000_confirm_call.
  - split; [intro Heq | intro D; exact (proj2 (M3 D))].
    all_fields_truthy; passes_check_contradiction N cid sec event text v B P Hv Heq IndexTs_confirm_call.
  - intros hash Hc; split; [|split]; intros; split.
    + sends_call N cid sec event text v B P Hv Part000_authenticate_call.
    + sends_call N cid sec event text v B P Hv IndexTs_authenticate_call.
    + sends_call N cid sec event text v B P Hv Part000_register_call.
    + sends_call N cid sec event text v B P Hv IndexTs_register_call.
    + sends_call N cid sec event text v B P Hv Part000_confirm_call.
    + sends_call N cid sec event text v B P Hv IndexTs_confirm_call.
  - intro S; apply (proj2 (calculateSecretHash_throws_iff N cid sec _)) in S.
    exact (handlers_hash_throw N cid sec event text v B P Hv S).
  - apply calculateSecretHash_throws_iff.
Qed.

Lemma C6_validation_failures_witness :
  Part000.authenticate test_toString test_client_id test_client_secret (body_event "{}")
  = Ret (Part000.respond 400 (js "Missing username or password")).
Proof.
  destruct (C6_validation_failures test_toString test_client_id test_client_secret
              (body_event "{}")) as [_ H].
  destruct (H (jq "{}") (JObject []) eq_refl ltac:(vm_compute; reflexivity)
              ltac:(discriminate)) as [Ha _].
  exact (proj1 (Ha (or_introl eq_refl))).
Defined.

(** C6 fails as stated for a body that parses to [null]: it is neither
    absent nor a value with missing fields, and the handlers throw. *)
Lemma C6_null_body_throws :
  Part000.authenticate test_toString test_client_id test_client_secret (body_event "null")
  = Throw TypeError /\
  IndexTs.register test_toString test_client_id test_client_secret (body_event "null")
  = Throw TypeError /\
  Part000.confirm test_toString test_client_id test_client_secret (body_event " null ")
  = Throw TypeError.
Proof. vm_compute. repeat split. Qed.

Lemma C10_truthiness_validation_witness :
  (Part000.authenticate test_toString test_client_id test_client_secret
     (body_event "{'username':'','password':'pw'}")
   = Ret (Part000.respond 400 (js "Missing username or password")) <->
   truthy (get_property (JObject [(js "username", JString []); (js "password", JString (js "pw"))])
             (js "username")) = false \/
   truthy (get_property (JObject [(js "username", JString []); (js "password", JString (js "pw"))])
             (js "password")) = false).
Proof.
  destruct (C10_truthiness_validation test_toString test_client_id test_client_secret
              (body_event "{'username':'','password':'pw'}")
              (jq "{'username':'','password':'pw'}")
              (JObject [(js "username", JString []); (js "password", JString (js "pw"))])
              eq_refl ltac:(vm_compute; reflexivity) ltac:(discriminate)) as (H & _).
  exact H.
Defined.

(** C10 fails as stated: a truthy [username] object with a [toString] key
    passes the field check but is not forwarded (the handler throws a
    TypeError in [calculateSecretHash] before any call), and a body that
    parses to [null] throws instead of being validated.  A truthy number,
    on the other hand, is forwarded as it is. *)
Lemma C10_object_username_throws :
  Part000.confirm test_toString test_client_id test_client_secret
    (body_event "{'username':{'toString':'x'},'code':'1'}") = Throw TypeError /\
  IndexTs.authenticate test_toString test_client_id test_client_secret
    (body_event "{'username':[{'toString':0}],'password':'p'}") = Throw TypeError /\
  Part000.register test_toString test_client_id test_client_secret
    (body_event "null") = Throw TypeError /\
  calls (fun _ => Rejected None)
    (Part000.authenticate test_toString test_client_id test_client_secret
       (body_event "{'username':7,'password':true}"))
  = [initiateAuth {| AuthFlow := js "USER_PASSWORD_AUTH"; ia_ClientId := test_client_id;
                     USERNAME := JNumber 7 0; PASSWORD := JBool true;
                     SECRET_HASH := base64_encode (hmac_sha256 (utf8_encode test_client_secret)
                                                   (utf8_encode (js "n" ++ test_client_id))) |}].
Proof. vm_compute. repeat split. Qed.

Lemma string_username_passes N cid sec v u :
  get_property v (js "username") = JString u -> u <> [] ->
  v <> JNull /\ truthy (get_property v (js "username")) = true /\
  calculateSecretHash N cid sec (get_property v (js "username")) =
    Ret (base64_encode (hmac_sha256 (utf8_encode sec) (utf8_encode (u ++ cid)))).
Proof.
  intros HU Hu; split; [|split].
  - intros ->; discriminate.
  - rewrite HU; destruct u; [contradiction | reflexivity].
  - rewrite HU; reflexivity.
Qed.

(** C2 (amended): for a body that parses to an object whose [username] is a
    non-empty string and whose [password] is truthy, when [initiateAuth]
    succeeds with payload [res]: without an access token, or with an empty
    one, the answer is 400 "Invalid username or password"; with a token [t]
    the answer is 200 with [t] under the key [accessToken] in index.ts (both
    of its [authenticate]s), but under the key [message] in part_000
    ([respond(200, accessToken)]). *)
Theorem C2_authenticate_success (N : Z -> Z -> jsstring) (cid sec : jsstring)
  (event : APIGatewayProxyEvent) (text : jsstring) (v : jsval) (u : jsstring)
  (res : option AuthenticationResultType) :
  body event = Some text -> JSON_parse text = Some v ->
  get_property v (js "username") = JString u -> u <> [] ->
  truthy (get_property v (js "password")) = true ->
  run (fun _ => Fulfilled res) (Part000.authenticate N cid sec event) =
    Returned (match match res with Some a => ar_AccessToken a | None => None end with
              | Some t =>
                  if jsstring_eqb t [] then Part000.respond 400 (js "Invalid username or password")
                  else mkResult 200 (JSON_stringify [(js "message", Some t)])
              | None => Part000.respond 400 (js "Invalid username or password")
              end) /\
  run (fun _ => Fulfilled res) (IndexTs.authenticate N cid sec event) =
    Returned (match match res with Some a => ar_AccessToken a | None => None end with
              | Some t =>
                  if jsstring_eqb t [] then
                    IndexTs.message_result 400 (Some (js "Invalid username or password"))
                  else mkResult 200 (JSON_stringify [(js "accessToken", Some t)])
              | None => IndexTs.message_result 400 (Some (js "Invalid username or password"))
              end) /\
  run (fun _ => Fulfilled res) (IndexTsTail.authenticate N cid sec event) =
    Returned (match match res with Some a => ar_AccessToken a | None => None end with
              | Some t =>
                  if jsstring_eqb t [] then
                    IndexTs.message_result 400 (Some (js "Invalid username or password"))
                  else mkResult 200 (JSON_stringify [(js "accessToken", Some t)])
              | None => IndexTs.message_result 400 (Some (js "Invalid username or password"))
              end).
Proof.
  intros B P HU Hu T2.
  destruct (string_username_passes N cid sec v u HU Hu) as (Hv & T1 & Hc).
  split; [|split].
  - destruct (Part000_authenticate_call N cid sec event text v B P Hv _ T1 T2 Hc)
      as (k & E & K).
    rewrite E; simpl; rewrite K; reflexivity.
  - destruct (IndexTs_authenticate_call N cid sec event text v B P Hv _ T1 T2 Hc)
      as (k & E & K).
    rewrite E; simpl; rewrite K; reflexivity.
  - destruct (IndexTsTail_authenticate_call N cid sec event text v B P Hv _ T1 T2 Hc)
      as (k & E & K).
    rewrite E; simpl; rewrite K; reflexivity.
Qed.

Lemma C2_authenticate_success_witness :
  run (fun _ => Fulfilled (token_result "tok"))
      (IndexTs.authenticate test_toString test_client_id test_client_secret
         (body_event "{'username':'alice','password':'pw'}"))
  = Returned (mkResult 200 (JSON_stringify [(js "accessToken", Some (js "tok"))])).
Proof.
  destruct (C2_authenticate_success test_toString test_client_id test_client_secret
              (body_event "{'username':'alice','password':'pw'}")
              (jq "{'username':'alice','password':'pw'}")
              (JObject [(js "username", JString (js "alice")); (js "password", JString (js "pw"))])
              (js "alice") (token_result "tok")
              eq_refl ltac:(vm_compute; reflexivity) eq_refl ltac:(discriminate) eq_refl)
    as (_ & H & _).
  exact H.
Defined.

(** C2 fails as stated for part_000: its 200 answer carries the token under
    the key [message], like every other answer of that file.  In both files
    an empty token is answered 400. *)
Lemma C2_part000_token_under_message :
  run (fun _ => Fulfilled (token_result "tok"))
      (Part000.authenticate test_toString test_client_id test_client_secret
         (body_event "{'username':'alice','password':'pw'}"))
  = Returned (mkResult 200 (jq "{'message':'tok'}")) /\
  run (fun _ => Fulfilled (token_result ""))
      (IndexTs.authenticate test_toString test_client_id test_client_secret
         (body_event "{'username':'alice','password':'pw'}"))
  = Returned (mkResult 400 (jq "{'message':'Invalid username or password'}")).
Proof. vm_compute. split; reflexivity. Qed.

(** C4 (amended): for a request whose [Authorization] header is [a]: if [a]
    is the empty string, no call is made and the answer is 401 "Missing
    Authorization header"; otherwise, when [getUser] succeeds the answer is
    200 "Authorized", and when it is rejected with message [m] the answer is
    401 with [m], in part_000 falling back to "Unauthorized" when [m] is
    absent or empty, in index.ts with no fallback: the body is
    [JSON.stringify({message: undefined})], that is [{}]. *)
Theorem C4_authorize_outcome (event : APIGatewayProxyEvent) (a : jsstring) (r : Reply) :
  header_Authorization event = Some a ->
  (a = [] ->
     Part000.authorize event = Ret (Part000.respond 401 (js "Missing Authorization header")) /\
     IndexTs.authorize event =
       Ret (IndexTs.message_result 401 (Some (js "Missing Authorization header")))) /\
  (a <> [] ->
     run (fun _ => r) (Part000.authorize event) =
       Returned (match r with
                 | Fulfilled _ => Part000.respond 200 (js "Authorized")
                 | Rejected m => Part000.respond 401 (or_default m (js "Unauthorized"))
                 end) /\
     run (fun _ => r) (IndexTs.authorize event) =
       Returned (match r with
                 | Fulfilled _ => IndexTs.message_result 200 (Some (js "Authorized"))
                 | Rejected m => IndexTs.message_result 401 m
                 end)) /\
  IndexTs.message_result 401 None = mkResult 401 (js "{}").
Proof.
  intro H; unfold Part000.authorize, IndexTs.authorize; rewrite H.
  split; [|split].
  - intros ->; split; reflexivity.
  - intro Ha.
    assert (E : jsstring_eqb a [] = false) by (destruct a; [contradiction | reflexivity]).
    rewrite E; split; destruct r; reflexivity.
  - reflexivity.
Qed.

Lemma C4_authorize_outcome_witness :
  run (fun _ => Rejected None) (Part000.authorize (header_event (js "Bearer tok")))
  = Returned (Part000.respond 401 (js "Unauthorized")).
Proof.
  destruct (C4_authorize_outcome (header_event (js "Bearer tok")) (js "Bearer tok")
              (Rejected None) eq_refl) as (_ & H & _).
  exact (proj1 (H ltac:(discriminate))).
Defined.

(** C4 fails as stated for index.ts: a rejection that carries no message is
    answered 401 with the body [{}], not "Unauthorized"; and in both files an
    empty [Authorization] header is answered 401 "Missing Authorization
    header" even by a provider that would accept it. *)
Lemma C4_no_unauthorized_fallback :
  run (fun _ => Rejected None) (IndexTs.authorize (header_event (js "Bearer tok")))
  = Returned (mkResult 401 (js "{}")) /\
  run (fun _ => Rejected (Some [])) (IndexTs.authorize (header_event (js "Bearer tok")))
  = Returned (mkResult 401 (jq "{'message':''}")) /\
  run (fun _ => Fulfilled None) (Part000.authorize (header_event []))
  = Returned (mkResult 401 (jq "{'message':'Missing Authorization header'}")).
Proof. vm_compute. repeat split. Qed.

(** C7 (amended): for a body that parses to a value other than [null]: if
    [email], [username] or [password] is falsy the answer is 400 with the
    message "Missing email, username, or password" in part_000 and "Missing
    email, username or password" (no comma before "or") in index.ts.  When
    [username] is a non-empty string and [email] and [password] are truthy,
    a successful [signUp] is answered 200 "User created", and a rejection
    with message [m] is answered 400 with [m], falling back to "User
    registration failed" in part_000 only (index.ts answers [{}] when [m] is
    absent). *)
Theorem C7_register_outcome (N : Z -> Z -> jsstring) (cid sec : jsstring)
  (event : APIGatewayProxyEvent) (text : jsstring) (v : jsval) :
  body event = Some text -> JSON_parse text = Some v -> v <> JNull ->
  ((truthy (get_property v (js "email")) = false \/
    truthy (get_property v (js "username")) = false \/
    truthy (get_property v (js "password")) = false) ->
     Part000.register N cid sec event =
       Ret (mkResult 400 (JSON_stringify
              [(js "message", Some (js "Missing email, username, or password"))])) /\
     IndexTs.register N cid sec event =
       Ret (mkResult 400 (JSON_stringify
              [(js "message", Some (js "Missing email, username or password"))]))) /\
  (forall (u : jsstring) (r : Reply),
     get_property v (js "username") = JString u -> u <> [] ->
     truthy (get_property v (js "email")) = true ->
     truthy (get_property v (js "password")) = true ->
     run (fun _ => r) (Part000.register N cid sec event) =
       Returned (match r with
                 | Fulfilled _ => Part000.respond 200 (js "User created")
                 | Rejected m => Part000.respond 400 (or_default m (js "User registration failed"))
                 end) /\
     run (fun _ => r) (IndexTs.register N cid sec event) =
       Returned (match r with
                 | Fulfilled _ => IndexTs.message_result 200 (Some (js "User created"))
                 | Rejected m => IndexTs.message_result 400 m
                 end)).
Proof.
  intros B P Hv.
  destruct (handlers_field_missing N cid sec event text v B P Hv) as (_ & M2 & _).
  split.
  - exact M2.
  - intros u r HU Hu T1 T3.
    destruct (string_username_passes N cid sec v u HU Hu) as (_ & T2 & Hc).
    split.
    + destruct (Part000_register_call N cid sec event text v B P Hv _ T1 T2 T3 Hc)
        as (k & E & K).
      rewrite E; simpl; rewrite K; destruct r; reflexivity.
    + destruct (IndexTs_register_call N cid sec event text v B P Hv _ T1 T2 T3 Hc)
        as (k & E & K).
      rewrite E; simpl; rewrite K; destruct r; reflexivity.
Qed.

Lemma C7_register_outcome_witness :
  run (fun _ => Rejected None)
      (Part000.register test_toString test_client_id test_client_secret
         (body_event "{'email':'a@b.c','username':'alice','password':'pw'}"))
  = Returned (Part000.respond 400 (js "User registration failed")).
Proof.
  destruct (C7_register_outcome test_toString test_client_id test_client_secret
              (body_event "{'email':'a@b.c','username':'alice','password':'pw'}")
              (jq "{'email':'a@b.c','username':'alice','password':'pw'}")
              (JObject [(js "email", JString (js "a@b.c"));
                        (js "username", JString (js "alice"));
                        (js "password", JString (js "pw"))])
              eq_refl ltac:(vm_compute; reflexivity) ltac:(discriminate)) as [_ H].
  exact (proj1 (H (js "alice") (Rejected None) eq_refl ltac:(discriminate) eq_refl eq_refl)).
Defined.

(** C7 fails as stated for index.ts: its missing-field message has no comma
    before "or", and a rejection without a message is answered [{}]; in both
    files a body that parses to [null] throws. *)
Lemma C7_index_ts_register_messages :
  IndexTs.register test_toString test_client_id test_client_secret (body_event "{}")
  = Ret (mkResult 400 (jq "{'message':'Missing email, username or password'}")) /\
  run (fun _ => Rejected None)
      (IndexTs.register test_toString test_client_id test_client_secret
         (body_event "{'email':'a@b.c','username':'alice','password':'pw'}"))
  = Returned (mkResult 400 (js "{}")) /\
  Part000.register test_toString test_client_id test_client_secret (body_event "null")
  = Throw TypeError.
Proof. vm_compute. repeat split. Qed.

(** C9 (amended): for a request whose [Authorization] header is a non-empty
    string [a], both versions of [authorize] make one [getUser] call, with
    [a.replace('Bearer ', '')] as the access token: [a] with its first
    occurrence of "Bearer " removed, or [a] itself, unchanged, when it
    contains no "Bearer ".  An empty header is answered locally, 401
    "Missing Authorization header". *)
Theorem C9_bearer_prefix_removed (event : APIGatewayProxyEvent) (a : jsstring) :
  header_Authorization event = Some a ->
  (a <> [] ->
     (exists k, Part000.authorize event =
                  Await (getUser {| AccessToken := string_replace a (js "Bearer ") [] |}) k) /\
     (exists k, IndexTs.authorize event =
                  Await (getUser {| AccessToken := string_replace a (js "Bearer ") [] |}) k)) /\
  (forall x y,
     a = x ++ js "Bearer " ++ y ->
     (forall x' y', a = x' ++ js "Bearer " ++ y' -> (List.length x <= List.length x')%nat) ->
     string_replace a (js "Bearer ") [] = x ++ y) /\
  ((forall x y, a <> x ++ js "Bearer " ++ y) -> string_replace a (js "Bearer ") [] = a) /\
  (a = [] ->
     Part000.authorize event = Ret (Part000.respond 401 (js "Missing Authorization header")) /\
     IndexTs.authorize event =
       Ret (IndexTs.message_result 401 (Some (js "Missing Authorization header")))).
Proof.
  intro H; split; [|split; [|split]].
  - intro Ha; unfold Part000.authorize, IndexTs.authorize; rewrite H.
    assert (E : jsstring_eqb a [] = false) by (destruct a; [contradiction | reflexivity]).
    rewrite E; split; eexists; reflexivity.
  - apply string_replace_first.
  - apply string_replace_absent.
  - intros ->; unfold Part000.authorize, IndexTs.authorize; rewrite H; split; reflexivity.
Qed.

Lemma C9_bearer_prefix_removed_witness :
  string_replace (js "xBearer Bearer tok") (js "Bearer ") [] = js "xBearer tok".
Proof.
  destruct (C9_bearer_prefix_removed (header_event (js "xBearer Bearer tok"))
              (js "xBearer Bearer tok") eq_refl) as (_ & H & _).
  apply (H (js "x") (js "Bearer tok") eq_refl).
  intros x' y' E.
  destruct x' as [|c1 x']; [discriminate E|]; simpl; lia.
Defined.

(** C9 fails as stated for the empty header: it contains no "Bearer " but
    is rejected locally, not forwarded. *)
Lemma C9_empty_header_rejected :
  Part000.authorize (header_event []) =
    Ret (Part000.respond 401 (js "Missing Authorization header")) /\
  calls (fun _ => Fulfilled None) (IndexTs.authorize (header_event [])) = [] /\
  calls (fun _ => Fulfilled None) (IndexTs.authorize (header_event (js "tok")))
  = [getUser {| AccessToken := js "tok" |}].
Proof. vm_compute. repeat split. Qed.

(** ** Further properties of the handlers *)

(** Every response of the handlers of [src/unnamed/part_000] has a body that [JSON.parse] reads back as an object with the single property [message] holding a string, when the texts the provider replies with are well-formed UTF-16. *)
Theorem part000_bodies_are_message_objects (N : Z -> Z -> jsstring) (cid sec : jsstring)
  (provider : CognitoCall -> Reply) (event : APIGatewayProxyEvent) (r : APIGatewayProxyResult) :
  (forall c, reply_ok (provider c) = true) ->
  (run provider (Part000.authorize event) = Returned r ->
     exists s, JSON_parse (result_body r) = Some (JObject [(js "message", JString s)])) /\
  (run provider (Part000.authenticate N cid sec event) = Returned r ->
     exists s, JSON_parse (result_body r) = Some (JObject [(js "message", JString s)])) /\
  (run provider (Part000.register N cid sec event) = Returned r ->
     exists s, JSON_parse (result_body r) = Some (JObject [(js "message", JString s)])) /\
  (run provider (Part000.confirm N cid sec event) = Returned r ->
     exists s, JSON_parse (result_body r) = Some (JObject [(js "message", JString s)])).
Proof.
  intro HQ; split; [|split; [|split]];
    [ unfold Part000.authorize | unfold Part000.authenticate
    | unfold Part000.register | unfold Part000.confirm ];
    walk provider ltac:(reply_ok_cases provider HQ); message_leaf.
Qed.

(** Every response of the handlers of [src/src/index.ts] has a body that [JSON.parse] reads back as [{}] or [{ message }]; [authenticate] (both versions) may also answer [{ accessToken }]. *)
Theorem index_ts_bodies (N : Z -> Z -> jsstring) (cid sec : jsstring)
  (provider : CognitoCall -> Reply) (event : APIGatewayProxyEvent) (r : APIGatewayProxyResult) :
  (forall c, reply_ok (provider c) = true) ->
  (run provider (IndexTs.authorize event) = Returned r ->
     JSON_parse (result_body r) = Some (JObject []) \/
     exists s, JSON_parse (result_body r) = Some (JObject [(js "message", JString s)])) /\
  (run provider (IndexTs.register N cid sec event) = Returned r ->
     JSON_parse (result_body r) = Some (JObject []) \/
     exists s, JSON_parse (result_body r) = Some (JObject [(js "message", JString s)])) /\
  (run provider (IndexTs.confirm N cid sec event) = Returned r ->
     JSON_parse (result_body r) = Some (JObject []) \/
     exists s, JSON_parse (result_body r) = Some (JObject [(js "message", JString s)])) /\
  (run provider (IndexTs.authenticate N cid sec event) = Returned r -> index_ts_body r) /\
  (run provider (IndexTsTail.authenticate N cid sec event) = Returned r -> index_ts_body r).
Proof.
  intro HQ; split; [|split; [|split; [|split]]];
    [ unfold IndexTs.authorize | unfold IndexTs.register | unfold IndexTs.confirm
    | unfold IndexTs.authenticate | unfold IndexTsTail.authenticate ];
    walk provider ltac:(reply_ok_cases provider HQ);
    first [ index_ts_leaf
          | let E := fresh "E" in
            intro E; first [discriminate E | injection E as <-];
            first [ left; reflexivity
                  | right; eexists; apply JSON_parse_single; units_ok_leaf ] ].
Qed.

(** Each handler makes at most one Cognito call, and only of its own kind: [getUser] for [authorize], [initiateAuth] for [authenticate], [signUp] for [register], [confirmSignUp] for [confirm]. *)
Theorem handlers_call_at_most_once (N : Z -> Z -> jsstring) (cid sec : jsstring)
  (provider : CognitoCall -> Reply) (event : APIGatewayProxyEvent) :
  (calls provider (Part000.authorize event) = [] \/
   exists p, calls provider (Part000.authorize event) = [getUser p]) /\
  (calls provider (IndexTs.authorize event) = [] \/
   exists p, calls provider (IndexTs.authorize event) = [getUser p]) /\
  (calls provider (Part000.authenticate N cid sec event) = [] \/
   exists p, calls provider (Part000.authenticate N cid sec event) = [initiateAuth p]) /\
  (calls provider (IndexTs.authenticate N cid sec event) = [] \/
   exists p, calls provider (IndexTs.authenticate N cid sec event) = [initiateAuth p]) /\
  (calls provider (IndexTsTail.authenticate N cid sec event) = [] \/
   exists p, calls provider (IndexTsTail.authenticate N cid sec event) = [initiateAuth p]) /\
  (calls provider (Part000.register N cid sec event) = [] \/
   exists p, calls provider (Part000.register N cid sec event) = [signUp p]) /\
  (calls provider (IndexTs.register N cid sec event) = [] \/
   exists p, calls provider (IndexTs.register N cid sec event) = [signUp p]) /\
  (calls provider (Part000.confirm N cid sec event) = [] \/
   exists p, calls provider (Part000.confirm N cid sec event) = [confirmSignUp p]) /\
  (calls provider (IndexTs.confirm N cid sec event) = [] \/
   exists p, calls provider (IndexTs.confirm N cid sec event) = [confirmSignUp p]).
Proof.
  repeat match goal with |- _ /\ _ => split end;
    [ unfold Part000.authorize | unfold IndexTs.authorize
    | unfold Part000.authenticate | unfold IndexTs.authenticate
    | unfold IndexTsTail.authenticate
    | unfold Part000.register | unfold IndexTs.register
    | unfold Part000.confirm | unfold IndexTs.confirm ];
    walk provider ltac:(any_reply provider); one_call_leaf.
Qed.

(** [authorize], [register] and [confirm] of both files answer 200 only when their single Cognito call was made and fulfilled. *)
Theorem success_only_after_fulfilled_call (N : Z -> Z -> jsstring) (cid sec : jsstring)
  (provider : CognitoCall -> Reply) (event : APIGatewayProxyEvent) (r : APIGatewayProxyResult) :
  (run provider (Part000.authorize event) = Returned r -> statusCode r = 200 ->
   exists c res, calls provider (Part000.authorize event) = [c] /\ provider c = Fulfilled res) /\
  (run provider (IndexTs.authorize event) = Returned r -> statusCode r = 200 ->
   exists c res, calls provider (IndexTs.authorize event) = [c] /\ provider c = Fulfilled res) /\
  (run provider (Part000.register N cid sec event) = Returned r -> statusCode r = 200 ->
   exists c res, calls provider (Part000.register N cid sec event) = [c] /\ provider c = Fulfilled res) /\
  (run provider (IndexTs.register N cid sec event) = Returned r -> statusCode r = 200 ->
   exists c res, calls provider (IndexTs.register N cid sec event) = [c] /\ provider c = Fulfilled res) /\
  (run provider (Part000.confirm N cid sec event) = Returned r -> statusCode r = 200 ->
   exists c res, calls provider (Part000.confirm N cid sec event) = [c] /\ provider c = Fulfilled res) /\
  (run provider (IndexTs.confirm N cid sec event) = Returned r -> statusCode r = 200 ->
   exists c res, calls provider (IndexTs.confirm N cid sec event) = [c] /\ provider c = Fulfilled res).
Proof.
  repeat match goal with |- _ /\ _ => split end;
    [ unfold Part000.authorize | unfold IndexTs.authorize
    | unfold Part000.register | unfold IndexTs.register
    | unfold Part000.confirm | unfold IndexTs.confirm ];
    walk provider ltac:(reply_eqn provider);
    let E := fresh "E" in let S := fresh "S" in
    intros E S; first [discriminate E | injection E as <-];
    cbn [statusCode Part000.respond IndexTs.message_result] in S;
    first [discriminate S | do 2 eexists; split; [reflexivity | eassumption]].
Qed.

(** A 200 from any [authenticate] comes from a fulfilled [initiateAuth] that returned a non-empty access token, and the body serialises exactly that token (under [message] in part_000, under [accessToken] in index.ts). *)
Theorem authenticate_success_carries_token (N : Z -> Z -> jsstring) (cid sec : jsstring)
  (provider : CognitoCall -> Reply) (event : APIGatewayProxyEvent) (r : APIGatewayProxyResult) :
  (run provider (Part000.authenticate N cid sec event) = Returned r -> statusCode r = 200 ->
   exists c t, calls provider (Part000.authenticate N cid sec event) = [c] /\
     provider c = Fulfilled (Some {| ar_AccessToken := Some t |}) /\ t <> [] /\
     result_body r = JSON_stringify [(js "message", Some t)]) /\
  (run provider (IndexTs.authenticate N cid sec event) = Returned r -> statusCode r = 200 ->
   exists c t, calls provider (IndexTs.authenticate N cid sec event) = [c] /\
     provider c = Fulfilled (Some {| ar_AccessToken := Some t |}) /\ t <> [] /\
     result_body r = JSON_stringify [(js "accessToken", Some t)]) /\
  (run provider (IndexTsTail.authenticate N cid sec event) = Returned r -> statusCode r = 200 ->
   exists c t, calls provider (IndexTsTail.authenticate N cid sec event) = [c] /\
     provider c = Fulfilled (Some {| ar_AccessToken := Some t |}) /\ t <> [] /\
     result_body r = JSON_stringify [(js "accessToken", Some t)]).
Proof.
  split; [|split];
    [ unfold Part000.authenticate | unfold IndexTs.authenticate
    | unfold IndexTsTail.authenticate ];
    walk_eqn provider ltac:(token_reply provider);
    let E := fresh "E" in let S := fresh "S" in
    intros E S; first [discriminate E | injection E as <-];
    cbn [statusCode Part000.respond IndexTs.message_result] in S;
    first
      [ discriminate S
      | do 2 eexists; split; [reflexivity|]; split; [eassumption|]; split;
        [ match goal with
          | Hb : jsstring_eqb ?t [] = false |- ?t <> [] =>
              destruct t; [discriminate Hb | discriminate]
          end
        | reflexivity ] ].
Qed.

(** Every Cognito call of [authenticate], [register] and [confirm] carries the configured client id and, as secret hash, [calculateSecretHash] of the user name it sends; [initiateAuth] uses the [USER_PASSWORD_AUTH] flow. *)
Theorem handler_calls_carry_secret_hash (N : Z -> Z -> jsstring) (cid sec : jsstring)
  (provider : CognitoCall -> Reply) (event : APIGatewayProxyEvent) :
  (forall c, In c (calls provider (Part000.authenticate N cid sec event)) ->
     call_carries_secret_hash N cid sec c) /\
  (forall c, In c (calls provider (IndexTs.authenticate N cid sec event)) ->
     call_carries_secret_hash N cid sec c) /\
  (forall c, In c (calls provider (IndexTsTail.authenticate N cid sec event)) ->
     call_carries_secret_hash N cid sec c) /\
  (forall c, In c (calls provider (Part000.register N cid sec event)) ->
     call_carries_secret_hash N cid sec c) /\
  (forall c, In c (calls provider (IndexTs.register N cid sec event)) ->
     call_carries_secret_hash N cid sec c) /\
  (forall c, In c (calls provider (Part000.confirm N cid sec event)) ->
     call_carries_secret_hash N cid sec c) /\
  (forall c, In c (calls provider (IndexTs.confirm N cid sec event)) ->
     call_carries_secret_hash N cid sec c).
Proof.
  repeat match goal with |- _ /\ _ => split end;
    [ unfold Part000.authenticate | unfold IndexTs.authenticate
    | unfold IndexTsTail.authenticate
    | unfold Part000.register | unfold IndexTs.register
    | unfold Part000.confirm | unfold IndexTs.confirm ];
    walk_eqn provider ltac:(reply_eqn provider);
    first [ let Hc := fresh "Hc" in intros ? Hc; exact (False_rect _ Hc)
          | secret_hash_leaf ].
Qed.

(** When every rejection carries a non-empty message, the two files agree: [authorize] and [confirm] end identically, [register] differs only in its missing-field message, and [authenticate] only in the key of the token on success. *)
Theorem part000_index_ts_agree (N : Z -> Z -> jsstring) (cid sec : jsstring)
  (provider : CognitoCall -> Reply) (event : APIGatewayProxyEvent) :
  (forall c m, provider c = Rejected m -> exists s, m = Some s /\ s <> []) ->
  run provider (Part000.authorize event) = run provider (IndexTs.authorize event) /\
  run provider (Part000.confirm N cid sec event) = run provider (IndexTs.confirm N cid sec event) /\
  (run provider (Part000.register N cid sec event) = run provider (IndexTs.register N cid sec event) \/
   run provider (Part000.register N cid sec event)
     = Returned (Part000.respond 400 (js "Missing email, username, or password")) /\
   run provider (IndexTs.register N cid sec event)
     = Returned (IndexTs.message_result 400 (Some (js "Missing email, username or password")))) /\
  (run provider (Part000.authenticate N cid sec event)
     = run provider (IndexTs.authenticate N cid sec event) \/
   exists t, run provider (Part000.authenticate N cid sec event) = Returned (Part000.respond 200 t) /\
     run provider (IndexTs.authenticate N cid sec event)
       = Returned (mkResult 200 (JSON_stringify [(js "accessToken", Some t)]))).
Proof.
  intro HR; split; [|split; [|split]];
    [ unfold Part000.authorize, IndexTs.authorize
    | unfold Part000.confirm, IndexTs.confirm
    | unfold Part000.register, IndexTs.register
    | unfold Part000.authenticate, IndexTs.authenticate ];
    walk_eqn provider ltac:(rejection_has_message provider HR);
    first [ match goal with H : jsstring_eqb (_ :: _) [] = true |- _ => discriminate H end
          | same_or_expected ].
Qed.

(** On a non-empty body, the second [authenticate] of index.ts ends like the first, except that a rejected [initiateAuth] propagates as a thrown error instead of a 400 with the error's message. *)
Theorem index_ts_tail_vs_index (N : Z -> Z -> jsstring) (cid sec : jsstring)
  (provider : CognitoCall -> Reply) (event : APIGatewayProxyEvent) (text : jsstring) :
  body event = Some text -> text <> [] ->
  run provider (IndexTs.authenticate N cid sec event)
    = run provider (IndexTsTail.authenticate N cid sec event) \/
  exists m, run provider (IndexTs.authenticate N cid sec event)
              = Returned (IndexTs.message_result 400 m) /\
            run provider (IndexTsTail.authenticate N cid sec event) = Faulted (CognitoError m).
Proof.
  intros B Ht; unfold IndexTs.authenticate, IndexTsTail.authenticate; rewrite B.
  destruct text as [|x text]; [congruence|]; cbn [jsstring_eqb].
  walk_eqn provider ltac:(reply_eqn provider); same_or_expected.
Qed.


(** [respond] and [{ statusCode, body: JSON.stringify({ message }) }] produce bodies that [JSON.parse] reads back to the message; an [undefined] message gives [{}]. *)
Theorem respond_round_trip (code : Z) (m : jsstring) :
  units_ok m = true ->
  JSON_parse (result_body (Part000.respond code m))
    = Some (JObject [(js "message", JString m)]) /\
  JSON_parse (result_body (IndexTs.message_result code (Some m)))
    = Some (JObject [(js "message", JString m)]) /\
  JSON_parse (result_body (IndexTs.message_result code None)) = Some (JObject []).
Proof.
  intro H; split; [|split]; [apply JSON_parse_single; [reflexivity | exact H] .. | reflexivity].
Qed.

(** [JSON.parse] inverts the string quoting of [JSON.stringify] on every sequence of UTF-16 code units, lone surrogates and control characters included. *)
Theorem JSON_parse_QuoteJSONString (s : jsstring) :
  units_ok s = true -> JSON_parse (QuoteJSONString s) = Some (JString s).
Proof.
  intro H; unfold JSON_parse, QuoteJSONString.
  change (parse_value (S (List.length (34 :: quote_units s ++ [34]))) (34 :: quote_units s ++ [34]))
    with (match parse_string_chars (quote_units s ++ [34]) [] with
          | Some (str, r') => Some (JString str, r')
          | None => None
          end).
  rewrite parse_quote_units by exact H; reflexivity.
Qed.

(** The configuration [process.env.X || ''] of part_000 and [process.env.X ?? ''] of index.ts give the same string for every environment value. *)
Theorem config_or_matches_nullish (x : option jsstring) :
  or_default x [] = nullish_default x [].
Proof. destruct x as [[|c s]|]; reflexivity. Qed.

(** Whenever [calculateSecretHash] returns, its result is a 44-character base64 text whose last character is the padding [=] (a 32-byte HMAC-SHA-256 digest). *)
Theorem calculateSecretHash_shape (N : Z -> Z -> jsstring) (cid sec : jsstring)
  (username : jsval) (h : jsstring) :
  calculateSecretHash N cid sec username = Ret h ->
  List.length h = 44%nat /\ nth 43 h 0 = 61.
Proof.
  unfold calculateSecretHash; destruct (js_ToString N username); intro E;
    [injection E as <- | discriminate E].
  apply base64_encode_32; unfold hmac_sha256, SHA256.hash; apply digest_bytes_length.
Qed.

Lemma respond_round_trip_witness :
  units_ok (js "User created") = true /\
  JSON_parse (result_body (Part000.respond 200 (js "User created")))
    = Some (JObject [(js "message", JString (js "User created"))]).
Proof.
  split; [reflexivity|].
  exact (proj1 (respond_round_trip 200 (js "User created") eq_refl)).
Defined.

Lemma part000_bodies_are_message_objects_witness :
  (forall c, reply_ok (test_rejecting c) = true) /\
  run test_rejecting (Part000.authenticate test_toString test_client_id test_client_secret test_login)
    = Returned (Part000.respond 400 (js "denied")) /\
  JSON_parse (result_body (Part000.respond 400 (js "denied")))
    = Some (JObject [(js "message", JString (js "denied"))]).
Proof.
  assert (HQ : forall c, reply_ok (test_rejecting c) = true) by (intro; reflexivity).
  assert (R : run test_rejecting
                (Part000.authenticate test_toString test_client_id test_client_secret test_login)
              = Returned (Part000.respond 400 (js "denied"))) by (vm_compute; reflexivity).
  split; [exact HQ | split; [exact R|]].
  destruct (proj1 (proj2 (part000_bodies_are_message_objects test_toString test_client_id
              test_client_secret test_rejecting test_login _ HQ)) R) as [s E].
  rewrite E; vm_compute in E; injection E as <-; reflexivity.
Defined.

Lemma index_ts_bodies_witness :
  (forall c, reply_ok (test_granting c) = true) /\
  run test_granting (IndexTs.authenticate test_toString test_client_id test_client_secret test_login)
    = Returned (mkResult 200 (jq "{'accessToken':'tok'}")) /\
  index_ts_body (mkResult 200 (jq "{'accessToken':'tok'}")).
Proof.
  assert (HQ : forall c, reply_ok (test_granting c) = true) by (intro; reflexivity).
  assert (R : run test_granting
                (IndexTs.authenticate test_toString test_client_id test_client_secret test_login)
              = Returned (mkResult 200 (jq "{'accessToken':'tok'}"))) by (vm_compute; reflexivity).
  split; [exact HQ | split; [exact R|]].
  exact (proj1 (proj2 (proj2 (proj2 (index_ts_bodies test_toString test_client_id
           test_client_secret test_granting test_login _ HQ)))) R).
Defined.

Lemma success_only_after_fulfilled_call_witness :
  run test_granting (IndexTs.register test_toString test_client_id test_client_secret test_signup)
    = Returned (IndexTs.message_result 200 (Some (js "User created"))) /\
  exists c res,
    calls test_granting (IndexTs.register test_toString test_client_id test_client_secret test_signup)
      = [c] /\ test_granting c = Fulfilled res.
Proof.
  assert (R : run test_granting
                (IndexTs.register test_toString test_client_id test_client_secret test_signup)
              = Returned (IndexTs.message_result 200 (Some (js "User created"))))
    by (vm_compute; reflexivity).
  split; [exact R|].
  exact (proj1 (proj2 (proj2 (proj2 (success_only_after_fulfilled_call test_toString
           test_client_id test_client_secret test_granting test_signup _)))) R eq_refl).
Defined.

Lemma authenticate_success_carries_token_witness :
  run test_granting (Part000.authenticate test_toString test_client_id test_client_secret test_login)
    = Returned (Part000.respond 200 (js "tok")) /\
  exists c t,
    calls test_granting (Part000.authenticate test_toString test_client_id test_client_secret test_login)
      = [c] /\ test_granting c = Fulfilled (Some {| ar_AccessToken := Some t |}) /\ t <> [] /\
    result_body (Part000.respond 200 (js "tok")) = JSON_stringify [(js "message", Some t)].
Proof.
  assert (R : run test_granting
                (Part000.authenticate test_toString test_client_id test_client_secret test_login)
              = Returned (Part000.respond 200 (js "tok"))) by (vm_compute; reflexivity).
  split; [exact R|].
  exact (proj1 (authenticate_success_carries_token test_toString test_client_id
           test_client_secret test_granting test_login _) R eq_refl).
Defined.

Lemma handler_calls_carry_secret_hash_witness :
  exists c,
    calls test_granting (IndexTs.register test_toString test_client_id test_client_secret test_signup)
      = [c] /\ call_carries_secret_hash test_toString test_client_id test_client_secret c.
Proof.
  destruct (calls test_granting
              (IndexTs.register test_toString test_client_id test_client_secret test_signup))
    as [|c [|]] eqn:E; [vm_compute in E; discriminate E | | vm_compute in E; discriminate E].
  exists c; split; [reflexivity|].
  apply (proj1 (proj2 (proj2 (proj2 (proj2 (handler_calls_carry_secret_hash test_toString
           test_client_id test_client_secret test_granting test_signup)))))).
  rewrite E; left; reflexivity.
Defined.

Lemma part000_index_ts_agree_witness :
  (forall c m, test_rejecting c = Rejected m -> exists s, m = Some s /\ s <> []) /\
  run test_rejecting (Part000.confirm test_toString test_client_id test_client_secret test_confirmation)
    = run test_rejecting (IndexTs.confirm test_toString test_client_id test_client_secret test_confirmation).
Proof.
  assert (HR : forall c m, test_rejecting c = Rejected m -> exists s, m = Some s /\ s <> []).
  { intros c m E; injection E as <-; eexists; split; [reflexivity | discriminate]. }
  split; [exact HR|].
  exact (proj1 (proj2 (part000_index_ts_agree test_toString test_client_id test_client_secret
           test_rejecting test_confirmation HR))).
Defined.

Lemma index_ts_tail_vs_index_witness :
  body test_login = Some (jq "{'username':'alice','password':'pw'}") /\
  (run test_rejecting (IndexTs.authenticate test_toString test_client_id test_client_secret test_login)
     = run test_rejecting
         (IndexTsTail.authenticate test_toString test_client_id test_client_secret test_login) \/
   exists m,
     run test_rejecting (IndexTs.authenticate test_toString test_client_id test_client_secret test_login)
       = Returned (IndexTs.message_result 400 m) /\
     run test_rejecting
       (IndexTsTail.authenticate test_toString test_client_id test_client_secret test_login)
       = Faulted (CognitoError m)).
Proof.
  split; [reflexivity|].
  apply (index_ts_tail_vs_index test_toString test_client_id test_client_secret test_rejecting
           test_login (jq "{'username':'alice','password':'pw'}")); [reflexivity | discriminate].
Defined.


Lemma JSON_parse_QuoteJSONString_witness :
  units_ok [34; 92; 10; 1; 55357; 56832; 56832] = true /\
  JSON_parse (QuoteJSONString [34; 92; 10; 1; 55357; 56832; 56832])
    = Some (JString [34; 92; 10; 1; 55357; 56832; 56832]).
Proof.
  split; [reflexivity|].
  apply JSON_parse_QuoteJSONString; reflexivity.
Defined.

Lemma calculateSecretHash_shape_witness :
  calculateSecretHash test_toString test_client_id test_client_secret (JString (js "alice"))
    = Ret (base64_encode (hmac_sha256 (utf8_encode test_client_secret)
                                      (utf8_encode (js "alice" ++ test_client_id)))) /\
  List.length (base64_encode (hmac_sha256 (utf8_encode test_client_secret)
                                          (utf8_encode (js "alice" ++ test_client_id)))) = 44%nat.
Proof.
  assert (E : calculateSecretHash test_toString test_client_id test_client_secret (JString (js "alice"))
    = Ret (base64_encode (hmac_sha256 (utf8_encode test_client_secret)
                                      (utf8_encode (js "alice" ++ test_client_id)))))
    by reflexivity.
  split; [exact E|].
  exact (proj1 (calculateSecretHash_shape test_toString test_client_id test_client_secret _ _ E)).
Defined.
